(** * Tool-call webhook backend (app.py): a shallow embedding

    The program is a set of ten request handlers over three tables
    (todos, reminders, calendar_events).  Every handler scans the tool
    calls of the request for the first one carrying its function name,
    decodes that call's arguments, validates them, performs at most one
    storage operation and wraps the result in a one-element envelope.

    The handlers are embedded as functions
    [VapiRequest -> Store -> response * Store]: the store is threaded
    explicitly, and an exception raised before [db.commit()] leaves it as
    it was.  The database is SQLite (line 16), reached through the ORM. *)

From Stdlib Require Import Ascii String.
From Stdlib Require Import Floats.SpecFloat.
From stdpp Require Import gmap strings list fin_maps pretty.

Local Open Scope Z_scope.
Set Warnings "-register-all".

(** ** JSON values

    The values a decoded request body can hold.  [JNum] carries a
    Python [int] and [JFloat] a Python [float]: a zero of either sign, a
    finite value, or one of the infinities and the NaN that [json.loads]
    accepts.  A Python [str] is held as its UTF-8 bytes, a lone surrogate
    (which [json.loads] yields for an escape such as [\ud800]) in its
    three-byte form.  An object is a finite map, as a Python [dict]
    decoded from JSON is. *)

Inductive json :=
  | JNull
  | JBool (b : bool)
  | JNum (n : Z)
  | JFloat (x : spec_float)
  | JStr (s : string)
  | JArr (l : list json)
  | JObj (o : gmap string json).

(** Python's truth value of a decoded JSON value, as tested by [not v]. *)
Definition truthy (v : json) : bool :=
  match v with
  | JNull => false
  | JBool b => b
  | JNum n => negb (n =? 0)
  | JFloat x => match x with S754_zero _ => false | _ => true end
  | JStr s => match s with EmptyString => false | String _ _ => true end
  | JArr l => match l with [] => false | _ :: _ => true end
  | JObj o => negb (Nat.eqb (size o) 0)
  end.

(** ** Request models (lines 69-89) *)

(** [arguments: str | dict] *)
Inductive Arguments :=
  | ArgStr (s : string)
  | ArgDict (d : gmap string json).

Module ToolCallFunction.
Record t := mk { name : string; arguments : Arguments }.
End ToolCallFunction.

Module ToolCall.
Record t := mk { id : string; function : ToolCallFunction.t }.
End ToolCall.

Module Message.
Record t := mk { toolCalls : list ToolCall.t }.
End Message.

Module VapiRequest.
Record t := mk { message : Message.t }.
End VapiRequest.

(** ** Tables (lines 30-55)

    A table is a finite map from the integer primary key to the other
    columns of the row.  [String] and [DateTime] columns are nullable.
    A [datetime] holds the fields the [DateTime] column keeps of a
    timestamp: the date and the time of day, without an offset. *)

Record datetime := mk_datetime {
  year : Z; month : Z; day : Z;
  hour : Z; minute : Z; second : Z; microsecond : Z
}.

Module Todo.
Record t := mk {
  title : option string;
  description : option string;
  completed : bool
}.
End Todo.

Module Reminder.
Record t := mk {
  reminder_text : option string;
  importance : option string
}.
End Reminder.

Module CalendarEvent.
Record t := mk {
  title : option string;
  description : option string;
  event_from : option datetime;
  event_to : option datetime
}.
End CalendarEvent.

Record Store := mk_store {
  todos : gmap Z Todo.t;
  reminders : gmap Z Reminder.t;
  calendar_events : gmap Z CalendarEvent.t
}.

Definition empty_store : Store :=
  {| todos := ∅; reminders := ∅; calendar_events := ∅ |}.

(** ** Response models (lines 91-122) *)

Module TodoResponse.
Record t := mk {
  id : Z;
  title : string;
  description : option string;
  completed : bool
}.
End TodoResponse.

Module ReminderResponse.
Record t := mk {
  id : Z;
  reminder_text : string;
  importance : string
}.
End ReminderResponse.

Module CalendarEventResponse.
Record t := mk {
  id : Z;
  title : string;
  description : option string;
  event_from : datetime;
  event_to : datetime
}.
End CalendarEventResponse.

(** What a handler puts under ['result']. *)
Inductive payload :=
  | PStr (s : string)
  | PTodos (l : list TodoResponse.t)
  | PReminder (r : ReminderResponse.t)
  | PReminders (l : list ReminderResponse.t)
  | PCalendarEvent (e : CalendarEventResponse.t)
  | PCalendarEvents (l : list CalendarEventResponse.t)
  | PDeleted (id : json) (deleted : bool).

Record result_entry := mk_result { toolCallId : string; result : payload }.

(** What escapes a handler: an [HTTPException] it raises itself, or any
    other exception ([JSONDecodeError], [AttributeError], [TypeError], a
    validation error of a response model, an error of the database
    driver), which the framework answers with status 500. *)
Inductive exception :=
  | HTTPException (status_code : Z) (detail : string)
  | OtherException.

(** What the client receives: the returned envelope [{'results': [...]}]
    or the answer to an exception. *)
Inductive response :=
  | Results (results : list result_entry)
  | Error (e : exception).

(** ** Exceptions inside a handler *)

Definition attempt (A : Type) : Type := exception + A.

Definition raise {A} (e : exception) : attempt A := inl e.

#[global] Instance attempt_ret : MRet attempt := λ A a, inr a.
#[global] Instance attempt_bind : MBind attempt := λ A B k m,
  match m with
  | inl e => inl e
  | inr a => k a
  end.

(** A handler's outcome: the store changes only when the body returns. *)
Definition run (db : Store) (m : attempt (response * Store)) : response * Store :=
  match m with
  | inl e => (Error e, db)
  | inr out => out
  end.

(** ** Library functions the handlers call

    [json.loads] and [datetime.fromisoformat] belong to the Python
    library, and the comparison of a text parameter with an integer key
    to the storage engine.  The handlers are parametric in them. *)

Class Library := {
  (** [json.loads s]; [None] when it raises [JSONDecodeError] *)
  json_loads : string → option json;
  (** [dt.datetime.fromisoformat s] on a [str]; [None] when it raises
      [ValueError] *)
  fromisoformat : string → option datetime;
  (** the integer a text parameter is equal to when the engine compares
      it with an integer column, if there is one *)
  numeric_affinity : string → option Z;
  (** the text form the engine gives a real number stored in a text
      column *)
  real_text : spec_float → string;
  (** the integer a real parameter is equal to when the engine compares
      it with an integer column, if there is one *)
  real_key : spec_float → option Z
}.

(** ** Binding Python values to SQL parameters

    The handlers pass the values of the arguments to the ORM as they
    are: [Todo(title=title, ...)], [Todo.id == todo_id].  What the
    SQLite driver does with each kind of value is written out here.  It
    binds [None], [str], [int] (a [bool] is an [int]) and [float]; an
    [int] outside the signed 64-bit range, a [str] it cannot encode as
    UTF-8, a [list] and a [dict] make it raise, which the handler does
    not catch.  A NaN is bound as NULL. *)

Definition fits_int64 (n : Z) : bool :=
  (- 2 ^ 63 <=? n) && (n <? 2 ^ 63).

(** Whether a text can be encoded as UTF-8: it holds no surrogate, that
    is no byte [ED] followed by a byte from [A0] on. *)
Fixpoint encodable (s : string) : bool :=
  match s with
  | EmptyString => true
  | String c rest =>
      match rest with
      | String d _ =>
          if (N_of_ascii c =? 237)%N && (160 <=? N_of_ascii d)%N
          then false
          else encodable rest
      | EmptyString => true
      end
  end.

(** A value written to a [String] column: [None] and a NaN are stored as
    NULL, a string as itself, and a number in its text form. *)
Definition bind_text `{Library} (v : json) : attempt (option string) :=
  match v with
  | JNull => mret None
  | JStr s => if encodable s then mret (Some s) else raise OtherException
  | JNum n => if fits_int64 n then mret (Some (pretty n)) else raise OtherException
  | JFloat S754_nan => mret None
  | JFloat x => mret (Some (real_text x))
  | JBool b => mret (Some (if b then "1" else "0"))
  | JArr _ | JObj _ => raise OtherException
  end.

(** A value compared with the integer primary key, [T.id == v]: the key
    it is equal to, if any.  [True] is 1 and [False] is 0; for a text
    and for a real number the engine decides ([numeric_affinity],
    [real_key]). *)
Definition bind_key `{Library} (v : json) : attempt (option Z) :=
  match v with
  | JNull => mret None
  | JNum n => if fits_int64 n then mret (Some n) else raise OtherException
  | JBool b => mret (Some (Z.b2z b))
  | JFloat S754_nan => mret None
  | JFloat x => mret (real_key x)
  | JStr s =>
      if encodable s then mret (numeric_affinity s) else raise OtherException
  | JArr _ | JObj _ => raise OtherException
  end.

(** The key the engine gives to an inserted row: one more than the
    largest key in use, 1 in an empty table. *)
Definition next_id {A} (table : gmap Z A) : Z :=
  match (map_to_list table).*1 with
  | [] => 1
  | k :: ks => foldr Z.max k ks + 1
  end.

Definition add {A} (row : A) (table : gmap Z A) : Z * gmap Z A :=
  let k := next_id table in (k, <[k := row]> table).

(** ** Steps shared by the handlers *)

(** [for tool_call in request.message.toolCalls:
       if tool_call.function.name == expected: ...] *)
Fixpoint find_tool_call (expected : string) (calls : list ToolCall.t)
  : option ToolCall.t :=
  match calls with
  | [] => None
  | tool_call :: rest =>
      if decide (ToolCallFunction.name (ToolCall.function tool_call) = expected)
      then Some tool_call
      else find_tool_call expected rest
  end.

(** [args = tool_call.function.arguments
     if isinstance(args, str): args = json.loads(args)]
    followed by the first [args.get], which needs a dict. *)
Definition load_arguments `{Library} (args : Arguments)
  : attempt (gmap string json) :=
  match args with
  | ArgDict d => mret d
  | ArgStr s =>
      match json_loads s with
      | Some (JObj d) => mret d
      | Some _ => raise OtherException
      | None => raise OtherException
      end
  end.

(** [args.get(key, fallback)] and [args.get(key)] *)
Definition get (args : gmap string json) (key : string) (fallback : json) : json :=
  default fallback (args !! key).

Definition get_or_none (args : gmap string json) (key : string) : json :=
  get args key JNull.

(** [Response.from_orm(row)] validates the row against the declared
    fields (lines 92-122): a field declared [str] or [dt.datetime] rejects
    [None] and the handler does not catch the validation error; a field
    declared [Union[str, None]] accepts it. *)
Definition required {A} (field : option A) : attempt A :=
  match field with
  | Some a => mret a
  | None => raise OtherException
  end.

Definition TodoResponse_from_orm (row : Z * Todo.t) : attempt TodoResponse.t :=
  title ← required (Todo.title row.2);
  mret (TodoResponse.mk row.1 title (Todo.description row.2) (Todo.completed row.2)).

Definition ReminderResponse_from_orm (row : Z * Reminder.t)
  : attempt ReminderResponse.t :=
  reminder_text ← required (Reminder.reminder_text row.2);
  importance ← required (Reminder.importance row.2);
  mret (ReminderResponse.mk row.1 reminder_text importance).

Definition CalendarEventResponse_from_orm (row : Z * CalendarEvent.t)
  : attempt CalendarEventResponse.t :=
  title ← required (CalendarEvent.title row.2);
  event_from ← required (CalendarEvent.event_from row.2);
  event_to ← required (CalendarEvent.event_to row.2);
  mret (CalendarEventResponse.mk row.1 title (CalendarEvent.description row.2)
          event_from event_to).

(** [[f(x) for x in xs]] where [f] may raise *)
Fixpoint for_each {A B} (f : A → attempt B) (xs : list A) : attempt (list B) :=
  match xs with
  | [] => mret []
  | x :: rest =>
      y ← f x;
      ys ← for_each f rest;
      mret (y :: ys)
  end.

Definition envelope (tool_call : ToolCall.t) (p : payload) : response :=
  Results [ {| toolCallId := ToolCall.id tool_call; result := p |} ].

Definition set_todos (table : gmap Z Todo.t) (db : Store) : Store :=
  {| todos := table; reminders := reminders db;
     calendar_events := calendar_events db |}.

Definition set_reminders (table : gmap Z Reminder.t) (db : Store) : Store :=
  {| todos := todos db; reminders := table;
     calendar_events := calendar_events db |}.

Definition set_calendar_events (table : gmap Z CalendarEvent.t) (db : Store)
  : Store :=
  {| todos := todos db; reminders := reminders db;
     calendar_events := table |}.

(** [todo.completed = b] *)
Definition set_completed (b : bool) (todo : Todo.t) : Todo.t :=
  Todo.mk (Todo.title todo) (Todo.description todo) b.

(** [db.query(T).filter(T.id == v).first()] for a parameter already
    bound: the row under that key, with its key. *)
Definition first_by_id {A} (table : gmap Z A) (key : option Z) : option (Z * A) :=
  k ← key; row ← table !! k; Some (k, row).

(** After [db.commit()] the row is stored whatever happens next. *)
Definition committed (db : Store) (m : attempt response) : response * Store :=
  match m with
  | inl e => (Error e, db)
  | inr r => (r, db)
  end.

(** [dt.datetime.fromisoformat(v)] inside [try ... except ValueError]:
    a malformed string is answered with 400, a value that is not a
    string raises [TypeError], which the handler does not catch. *)
Definition parse_iso `{Library} (v : json) : attempt datetime :=
  match v with
  | JStr s =>
      match fromisoformat s with
      | Some d => mret d
      | None => raise (HTTPException 400 "Invalid date format. Use ISO format.")
      end
  | _ => raise OtherException
  end.

(** [request.message.toolCalls] and [tool_call.function.arguments] *)
Definition calls (request : VapiRequest.t) : list ToolCall.t :=
  Message.toolCalls (VapiRequest.message request).

Definition arguments_of (tool_call : ToolCall.t) : Arguments :=
  ToolCallFunction.arguments (ToolCall.function tool_call).

Definition name_of (tool_call : ToolCall.t) : string :=
  ToolCallFunction.name (ToolCall.function tool_call).

(** ** The ten handlers (lines 125-394) *)

Section Handlers.
Context `{Library}.

Definition create_todo (request : VapiRequest.t) (db : Store)
  : response * Store :=
  match find_tool_call "createTodo" (calls request) with
  | None => (Error (HTTPException 400 "Invalid Request"), db)
  | Some tool_call =>
      run db (
        args ← load_arguments (arguments_of tool_call);
        let title := get args "title" (JStr "") in
        let description := get args "description" (JStr "") in
        title ← bind_text title;
        description ← bind_text description;
        let todo := Todo.mk title description false in
        mret (envelope tool_call (PStr "success"),
              set_todos (add todo (todos db)).2 db))
  end.

Definition get_todos (request : VapiRequest.t) (db : Store)
  : response * Store :=
  match find_tool_call "getTodos" (calls request) with
  | None => (Error (HTTPException 400 "Invalid Request"), db)
  | Some tool_call =>
      run db (
        let todos := map_to_list (todos db) in
        result ← for_each TodoResponse_from_orm todos;
        mret (envelope tool_call (PTodos result), db))
  end.

Definition complete_todo (request : VapiRequest.t) (db : Store)
  : response * Store :=
  match find_tool_call "completeTodo" (calls request) with
  | None => (Error (HTTPException 400 "Invalid Request"), db)
  | Some tool_call =>
      run db (
        args ← load_arguments (arguments_of tool_call);
        let todo_id := get_or_none args "id" in
        if negb (truthy todo_id)
        then raise (HTTPException 400 "Missing To-Do ID")
        else
          key ← bind_key todo_id;
          match first_by_id (todos db) key with
          | None => raise (HTTPException 404 "Todo not found")
          | Some (k, todo) =>
              let todo := set_completed true todo in
              mret (envelope tool_call (PStr "success"),
                    set_todos (<[k := todo]> (todos db)) db)
          end)
  end.

Definition delete_todo (request : VapiRequest.t) (db : Store)
  : response * Store :=
  match find_tool_call "deleteTodo" (calls request) with
  | None => (Error (HTTPException 400 "Invalid Request"), db)
  | Some tool_call =>
      run db (
        args ← load_arguments (arguments_of tool_call);
        let todo_id := get_or_none args "id" in
        if negb (truthy todo_id)
        then raise (HTTPException 400 "Missing To-Do ID")
        else
          key ← bind_key todo_id;
          match first_by_id (todos db) key with
          | None => raise (HTTPException 404 "Todo not found")
          | Some (k, _) =>
              mret (envelope tool_call (PStr "success"),
                    set_todos (delete k (todos db)) db)
          end)
  end.

Definition add_reminder (request : VapiRequest.t) (db : Store)
  : response * Store :=
  match find_tool_call "addReminder" (calls request) with
  | None => (Error (HTTPException 400 "Invalid request"), db)
  | Some tool_call =>
      run db (
        args ← load_arguments (arguments_of tool_call);
        let reminder_text := get_or_none args "reminder_text" in
        let importance := get_or_none args "importance" in
        if negb (truthy reminder_text) || negb (truthy importance)
        then raise (HTTPException 400 "Missing required fields")
        else
          reminder_text ← bind_text reminder_text;
          importance ← bind_text importance;
          let reminder := Reminder.mk reminder_text importance in
          let inserted := add reminder (reminders db) in
          mret (committed (set_reminders inserted.2 db) (
            created ← ReminderResponse_from_orm (inserted.1, reminder);
            mret (envelope tool_call (PReminder created)))))
  end.

Definition get_reminders (request : VapiRequest.t) (db : Store)
  : response * Store :=
  match find_tool_call "getReminders" (calls request) with
  | None => (Error (HTTPException 400 "Invalid request"), db)
  | Some tool_call =>
      run db (
        let reminders := map_to_list (reminders db) in
        result ← for_each ReminderResponse_from_orm reminders;
        mret (envelope tool_call (PReminders result), db))
  end.

Definition delete_reminder (request : VapiRequest.t) (db : Store)
  : response * Store :=
  match find_tool_call "deleteReminder" (calls request) with
  | None => (Error (HTTPException 400 "Invalid request"), db)
  | Some tool_call =>
      run db (
        args ← load_arguments (arguments_of tool_call);
        let reminder_id := get_or_none args "id" in
        if negb (truthy reminder_id)
        then raise (HTTPException 400 "Missing reminder ID")
        else
          key ← bind_key reminder_id;
          match first_by_id (reminders db) key with
          | None => raise (HTTPException 404 "Reminder not found")
          | Some (k, _) =>
              mret (envelope tool_call (PDeleted reminder_id true),
                    set_reminders (delete k (reminders db)) db)
          end)
  end.

Definition add_calendar_entry (request : VapiRequest.t) (db : Store)
  : response * Store :=
  match find_tool_call "addCalendarEntry" (calls request) with
  | None => (Error (HTTPException 400 "Invalid request"), db)
  | Some tool_call =>
      run db (
        args ← load_arguments (arguments_of tool_call);
        let title := get args "title" (JStr "") in
        let description := get args "description" (JStr "") in
        let event_from_str := get args "event_from" (JStr "") in
        let event_to_str := get args "event_to" (JStr "") in
        if negb (truthy title) || negb (truthy event_from_str)
           || negb (truthy event_to_str)
        then raise (HTTPException 400 "Missing required fields")
        else
          event_from ← parse_iso event_from_str;
          event_to ← parse_iso event_to_str;
          title ← bind_text title;
          description ← bind_text description;
          let calendar_event :=
            CalendarEvent.mk title description (Some event_from) (Some event_to) in
          let inserted := add calendar_event (calendar_events db) in
          mret (committed (set_calendar_events inserted.2 db) (
            created ← CalendarEventResponse_from_orm (inserted.1, calendar_event);
            mret (envelope tool_call (PCalendarEvent created)))))
  end.

Definition get_calendar_entries (request : VapiRequest.t) (db : Store)
  : response * Store :=
  match find_tool_call "getCalendarEntries" (calls request) with
  | None => (Error (HTTPException 400 "Invalid request"), db)
  | Some tool_call =>
      run db (
        let events := map_to_list (calendar_events db) in
        result ← for_each CalendarEventResponse_from_orm events;
        mret (envelope tool_call (PCalendarEvents result), db))
  end.

Definition delete_calendar_entry (request : VapiRequest.t) (db : Store)
  : response * Store :=
  match find_tool_call "deleteCalendarEntry" (calls request) with
  | None => (Error (HTTPException 400 "Invalid request"), db)
  | Some tool_call =>
      run db (
        args ← load_arguments (arguments_of tool_call);
        let event_id := get_or_none args "id" in
        if negb (truthy event_id)
        then raise (HTTPException 400 "Missing event ID")
        else
          key ← bind_key event_id;
          match first_by_id (calendar_events db) key with
          | None => raise (HTTPException 404 "Calendar event not found")
          | Some (k, _) =>
              mret (envelope tool_call (PDeleted event_id true),
                    set_calendar_events (delete k (calendar_events db)) db)
          end)
  end.

End Handlers.

(** ** The routes *)

Inductive endpoint :=
  | CreateTodo | GetTodos | CompleteTodo | DeleteTodo
  | AddReminder | GetReminders | DeleteReminder
  | AddCalendarEntry | GetCalendarEntries | DeleteCalendarEntry.

Definition endpoints : list endpoint :=
  [ CreateTodo; GetTodos; CompleteTodo; DeleteTodo;
    AddReminder; GetReminders; DeleteReminder;
    AddCalendarEntry; GetCalendarEntries; DeleteCalendarEntry ].

(** The function name each handler looks for. *)
Definition expected_name (e : endpoint) : string :=
  match e with
  | CreateTodo => "createTodo"
  | GetTodos => "getTodos"
  | CompleteTodo => "completeTodo"
  | DeleteTodo => "deleteTodo"
  | AddReminder => "addReminder"
  | GetReminders => "getReminders"
  | DeleteReminder => "deleteReminder"
  | AddCalendarEntry => "addCalendarEntry"
  | GetCalendarEntries => "getCalendarEntries"
  | DeleteCalendarEntry => "deleteCalendarEntry"
  end.

Definition handle `{Library} (e : endpoint)
  : VapiRequest.t → Store → response * Store :=
  match e with
  | CreateTodo => create_todo
  | GetTodos => get_todos
  | CompleteTodo => complete_todo
  | DeleteTodo => delete_todo
  | AddReminder => add_reminder
  | GetReminders => get_reminders
  | DeleteReminder => delete_reminder
  | AddCalendarEntry => add_calendar_entry
  | GetCalendarEntries => get_calendar_entries
  | DeleteCalendarEntry => delete_calendar_entry
  end.

(** The stores the service can be in: the empty tables created at
    startup, and whatever a handled request leaves behind. *)
Inductive reachable `{Library} : Store → Prop :=
  | reachable_start : reachable empty_store
  | reachable_request e request db :
      reachable db → reachable (handle e request db).2.

(** ** Vocabulary of the statements *)

Definition request_of (tool_calls : list ToolCall.t) : VapiRequest.t :=
  VapiRequest.mk (Message.mk tool_calls).

Definition call (id name : string) (args : Arguments) : ToolCall.t :=
  ToolCall.mk id (ToolCallFunction.mk name args).

(** [tool_call] is the first call of the request that carries [expected]. *)
Definition first_matching (expected : string) (request : VapiRequest.t)
  (tool_call : ToolCall.t) : Prop :=
  ∃ before after,
    calls request = before ++ tool_call :: after
    ∧ Forall (λ c, name_of c ≠ expected) before
    ∧ name_of tool_call = expected.

(** The arguments of [tool_call] are the object [a], given natively or
    as a string that decodes to it. *)
Definition carries `{Library} (tool_call : ToolCall.t) (a : gmap string json)
  : Prop :=
  match arguments_of tool_call with
  | ArgDict d => d = a
  | ArgStr s => json_loads s = Some (JObj a)
  end.

Definition status_of (r : response) : Z :=
  match r with
  | Results _ => 200
  | Error (HTTPException status_code _) => status_code
  | Error OtherException => 500
  end.

(** The four routes that take an ['id'] argument, with the messages of
    their two checks. *)
Definition takes_id (e : endpoint) : bool :=
  match e with
  | CompleteTodo | DeleteTodo | DeleteReminder | DeleteCalendarEntry => true
  | _ => false
  end.

Definition missing_id_detail (e : endpoint) : string :=
  match e with
  | CompleteTodo | DeleteTodo => "Missing To-Do ID"
  | DeleteReminder => "Missing reminder ID"
  | DeleteCalendarEntry => "Missing event ID"
  | _ => ""
  end.

Definition not_found_detail (e : endpoint) : string :=
  match e with
  | CompleteTodo | DeleteTodo => "Todo not found"
  | DeleteReminder => "Reminder not found"
  | DeleteCalendarEntry => "Calendar event not found"
  | _ => ""
  end.

(** Whether the table of the route holds a row under key [k]. *)
Definition has_row (e : endpoint) (k : Z) (db : Store) : bool :=
  match e with
  | CreateTodo | GetTodos | CompleteTodo | DeleteTodo =>
      bool_decide (is_Some (todos db !! k))
  | AddReminder | GetReminders | DeleteReminder =>
      bool_decide (is_Some (reminders db !! k))
  | AddCalendarEntry | GetCalendarEntries | DeleteCalendarEntry =>
      bool_decide (is_Some (calendar_events db !! k))
  end.

(** The store after the mutation of the route on the row under [k]: the
    to-do marked completed, or the row removed. *)
Definition mutated (e : endpoint) (k : Z) (db : Store) : Store :=
  match e with
  | CompleteTodo => set_todos (alter (set_completed true) k (todos db)) db
  | DeleteTodo => set_todos (delete k (todos db)) db
  | DeleteReminder => set_reminders (delete k (reminders db)) db
  | DeleteCalendarEntry =>
      set_calendar_events (delete k (calendar_events db)) db
  | _ => db
  end.

(** The number of rows in the table a route works on, and the routes
    that insert and that remove a row. *)
Definition rows (e : endpoint) (db : Store) : nat :=
  match e with
  | CreateTodo | GetTodos | CompleteTodo | DeleteTodo => size (todos db)
  | AddReminder | GetReminders | DeleteReminder => size (reminders db)
  | AddCalendarEntry | GetCalendarEntries | DeleteCalendarEntry =>
      size (calendar_events db)
  end.

Definition creates (e : endpoint) : bool :=
  match e with
  | CreateTodo | AddReminder | AddCalendarEntry => true
  | _ => false
  end.

Definition deletes (e : endpoint) : bool :=
  match e with
  | DeleteTodo | DeleteReminder | DeleteCalendarEntry => true
  | _ => false
  end.

(** Every key in use is positive, as the keys the engine hands out are. *)
Definition keys_positive (db : Store) : Prop :=
  map_Forall (λ k _, 0 < k) (todos db)
  ∧ map_Forall (λ k _, 0 < k) (reminders db)
  ∧ map_Forall (λ k _, 0 < k) (calendar_events db).

(** The three listing routes; the other seven read the arguments of
    their call. *)
Definition lists (e : endpoint) : bool :=
  match e with
  | GetTodos | GetReminders | GetCalendarEntries => true
  | _ => false
  end.

(** The two tables a route has no business with are the same in [db']
    as in [db]. *)
Definition others_untouched (e : endpoint) (db db' : Store) : Prop :=
  match e with
  | CreateTodo | GetTodos | CompleteTodo | DeleteTodo =>
      reminders db' = reminders db
      ∧ calendar_events db' = calendar_events db
  | AddReminder | GetReminders | DeleteReminder =>
      todos db' = todos db ∧ calendar_events db' = calendar_events db
  | AddCalendarEntry | GetCalendarEntries | DeleteCalendarEntry =>
      todos db' = todos db ∧ reminders db' = reminders db
  end.

#[global] Instance endpoint_eq_dec : EqDecision endpoint.
Proof. solve_decision. Defined.

Definition succeeded (r : response) : bool :=
  match r with
  | Results _ => true
  | Error _ => false
  end.

(** The service answering a sequence of requests, one after the other,
    each on the store the one before left. *)
Fixpoint serve `{Library} (requests : list (endpoint * VapiRequest.t))
    (db : Store) : list response * Store :=
  match requests with
  | [] => ([], db)
  | (e, request) :: rest =>
      let out := handle e request db in
      let outs := serve rest out.2 in
      (out.1 :: outs.1, outs.2)
  end.

(** The rows a listing can serialize: both texts of a reminder, and the
    title and both timestamps of a calendar event, are not NULL. *)
Definition reminder_readable (r : Reminder.t) : Prop :=
  is_Some (Reminder.reminder_text r) ∧ is_Some (Reminder.importance r).

Definition event_readable (ev : CalendarEvent.t) : Prop :=
  is_Some (CalendarEvent.title ev)
  ∧ is_Some (CalendarEvent.event_from ev)
  ∧ is_Some (CalendarEvent.event_to ev).

(** How many of the requests sent to route [e] were answered with
    status 500. *)
Fixpoint server_errors (e : endpoint)
    (requests : list (endpoint * VapiRequest.t))
    (responses : list response) : nat :=
  match requests, responses with
  | (e', _) :: requests, r :: responses =>
      ((if bool_decide (e' = e)
           && match r with Error OtherException => true | _ => false end
        then 1 else 0)
       + server_errors e requests responses)%nat
  | _, _ => 0%nat
  end.

(** How many of the requests sent to route [e] succeeded. *)
Fixpoint successes (e : endpoint) (requests : list (endpoint * VapiRequest.t))
    (responses : list response) : nat :=
  match requests, responses with
  | (e', _) :: requests, r :: responses =>
      ((if bool_decide (e' = e) && succeeded r then 1 else 0)
       + successes e requests responses)%nat
  | _, _ => 0%nat
  end.

(** ** A reference instance of the library functions

    A decoder for JSON texts made of objects, arrays, strings without
    escapes, integers, the three literals and the constants [NaN] and
    [Infinity]; a parser for timestamps written [YYYY-MM-DDTHH:MM:SS];
    the reading of a decimal integer literal; and, for a real number,
    its exact decimal expansion and the integer it is equal to.  The
    examples run the handlers on it. *)

Module Reference.

Definition quote : ascii := ascii_of_nat 34.
Definition backslash : ascii := ascii_of_nat 92.

Definition digit (c : ascii) : option Z :=
  let n := Z.of_N (N_of_ascii c) in
  if (48 <=? n) && (n <=? 57) then Some (n - 48) else None.

Definition is_digit (c : ascii) : bool :=
  match digit c with Some _ => true | None => false end.

Definition is_space (c : ascii) : bool :=
  let n := N_of_ascii c in
  (n =? 32)%N || (n =? 9)%N || (n =? 10)%N || (n =? 13)%N.

Fixpoint number (acc : Z) (cs : list ascii) : option Z :=
  match cs with
  | [] => Some acc
  | c :: rest => d ← digit c; number (10 * acc + d) rest
  end.

Definition natural (cs : list ascii) : option Z :=
  match cs with
  | [] => None
  | _ :: _ => number 0 cs
  end.

Definition integer (cs : list ascii) : option Z :=
  match cs with
  | c :: rest => if Ascii.eqb c "-" then Z.opp <$> natural rest else natural cs
  | [] => None
  end.

Inductive token :=
  | TLBrace | TRBrace | TLBracket | TRBracket | TColon | TComma
  | TString (s : string) | TNumber (n : Z) | TFloat (x : spec_float)
  | TTrue | TFalse | TNull.

Fixpoint string_body (cs : list ascii) : option (list ascii * list ascii) :=
  match cs with
  | [] => None
  | c :: rest =>
      if Ascii.eqb c quote then Some ([], rest)
      else if Ascii.eqb c backslash then None
      else '(body, rest) ← string_body rest; Some (c :: body, rest)
  end.

Fixpoint span_digits (cs : list ascii) : list ascii * list ascii :=
  match cs with
  | [] => ([], [])
  | c :: rest =>
      if is_digit c
      then let '(ds, rest) := span_digits rest in (c :: ds, rest)
      else ([], cs)
  end.

Definition keyword (cs : list ascii) : option (token * list ascii) :=
  match cs with
  | "t" :: "r" :: "u" :: "e" :: rest => Some (TTrue, rest)
  | "f" :: "a" :: "l" :: "s" :: "e" :: rest => Some (TFalse, rest)
  | "n" :: "u" :: "l" :: "l" :: rest => Some (TNull, rest)
  | "N" :: "a" :: "N" :: rest => Some (TFloat S754_nan, rest)
  | "I" :: "n" :: "f" :: "i" :: "n" :: "i" :: "t" :: "y" :: rest =>
      Some (TFloat (S754_infinity false), rest)
  | _ => None
  end%char.

Fixpoint lex (fuel : nat) (cs : list ascii) : option (list token) :=
  match fuel with
  | O => None
  | S fuel =>
      match cs with
      | [] => Some []
      | c :: rest =>
          if is_space c then lex fuel rest
          else if Ascii.eqb c "{" then cons TLBrace <$> lex fuel rest
          else if Ascii.eqb c "}" then cons TRBrace <$> lex fuel rest
          else if Ascii.eqb c "[" then cons TLBracket <$> lex fuel rest
          else if Ascii.eqb c "]" then cons TRBracket <$> lex fuel rest
          else if Ascii.eqb c ":" then cons TColon <$> lex fuel rest
          else if Ascii.eqb c "," then cons TComma <$> lex fuel rest
          else if Ascii.eqb c quote then
            '(body, rest) ← string_body rest;
            cons (TString (string_of_list_ascii body)) <$> lex fuel rest
          else if Ascii.eqb c "-" || is_digit c then
            let '(ds, rest) := span_digits rest in
            n ← integer (c :: ds);
            cons (TNumber n) <$> lex fuel rest
          else
            '(t, rest) ← keyword cs;
            cons t <$> lex fuel rest
      end
  end.

Fixpoint value (fuel : nat) (ts : list token) : option (json * list token) :=
  match fuel with
  | O => None
  | S fuel =>
      match ts with
      | TNull :: rest => Some (JNull, rest)
      | TTrue :: rest => Some (JBool true, rest)
      | TFalse :: rest => Some (JBool false, rest)
      | TNumber n :: rest => Some (JNum n, rest)
      | TFloat x :: rest => Some (JFloat x, rest)
      | TString s :: rest => Some (JStr s, rest)
      | TLBracket :: TRBracket :: rest => Some (JArr [], rest)
      | TLBracket :: rest =>
          '(l, rest) ← elements fuel rest; Some (JArr l, rest)
      | TLBrace :: TRBrace :: rest => Some (JObj ∅, rest)
      | TLBrace :: rest =>
          '(o, rest) ← members fuel ∅ rest; Some (JObj o, rest)
      | _ => None
      end
  end
with elements (fuel : nat) (ts : list token)
  : option (list json * list token) :=
  match fuel with
  | O => None
  | S fuel =>
      '(v, rest) ← value fuel ts;
      match rest with
      | TComma :: rest => '(l, rest) ← elements fuel rest; Some (v :: l, rest)
      | TRBracket :: rest => Some ([v], rest)
      | _ => None
      end
  end
with members (fuel : nat) (acc : gmap string json) (ts : list token)
  : option (gmap string json * list token) :=
  match fuel with
  | O => None
  | S fuel =>
      match ts with
      | TString k :: TColon :: rest =>
          '(v, rest) ← value fuel rest;
          let acc := <[k := v]> acc in
          match rest with
          | TComma :: rest => members fuel acc rest
          | TRBrace :: rest => Some (acc, rest)
          | _ => None
          end
      | _ => None
      end
  end.

Definition loads (s : string) : option json :=
  let cs := list_ascii_of_string s in
  ts ← lex (S (length cs)) cs;
  '(v, rest) ← value (S (S (length ts))) ts;
  match rest with
  | [] => Some v
  | _ :: _ => None
  end.

Definition leap (y : Z) : bool :=
  ((y mod 4 =? 0) && negb (y mod 100 =? 0)) || (y mod 400 =? 0).

Definition days_in_month (y m : Z) : Z :=
  if m =? 2 then (if leap y then 29 else 28)
  else if (m =? 4) || (m =? 6) || (m =? 9) || (m =? 11) then 30
  else 31.

Definition iso (s : string) : option datetime :=
  match list_ascii_of_string s with
  | [y1; y2; y3; y4; d1; m1; m2; d2; a1; a2; sep;
     h1; h2; c1; n1; n2; c2; s1; s2] =>
      y ← number 0 [y1; y2; y3; y4];
      m ← number 0 [m1; m2];
      d ← number 0 [a1; a2];
      h ← number 0 [h1; h2];
      n ← number 0 [n1; n2];
      sec ← number 0 [s1; s2];
      if Ascii.eqb d1 "-" && Ascii.eqb d2 "-"
         && Ascii.eqb c1 ":" && Ascii.eqb c2 ":"
         && (Ascii.eqb sep "T" || Ascii.eqb sep " ")
         && (1 <=? y) && (1 <=? m) && (m <=? 12)
         && (1 <=? d) && (d <=? days_in_month y m)
         && (h <=? 23) && (n <=? 59) && (sec <=? 59)
      then Some (mk_datetime y m d h n sec 0)
      else None
  | _ => None
  end.

(** JSON texts are written below with ['] for the double quote. *)
Fixpoint dq (s : string) : string :=
  match s with
  | EmptyString => EmptyString
  | String c rest => String (if Ascii.eqb c "'" then quote else c) (dq rest)
  end.

(** The integer a real number is, when it is one. *)
Definition whole (x : spec_float) : option Z :=
  match x with
  | S754_zero _ => Some 0
  | S754_finite negative m e =>
      let magnitude :=
        if 0 <=? e then Some (Z.pos m * 2 ^ e)
        else if Z.pos m mod 2 ^ (- e) =? 0 then Some (Z.pos m / 2 ^ (- e))
        else None in
      (λ z, if negative then - z else z) <$> magnitude
  | _ => None
  end.

(** The digits of [n] on [width] places. *)
Fixpoint places (width : nat) (n : Z) : string :=
  match width with
  | O => EmptyString
  | S width => places width (n / 10) +:+ pretty (n mod 10)
  end.

Definition decimal (x : spec_float) : string :=
  match x with
  | S754_zero negative => if negative then "-0.0" else "0.0"
  | S754_infinity negative => if negative then "-Inf" else "Inf"
  | S754_nan => "NaN"
  | S754_finite negative m e =>
      (if negative then "-" else "")
      +:+ (if 0 <=? e then pretty (Z.pos m * 2 ^ e) +:+ ".0"
           else pretty (Z.pos m / 2 ^ (- e)) +:+ "."
                +:+ places (Z.to_nat (- e))
                      (Z.pos m mod 2 ^ (- e) * 5 ^ (- e)))
  end.

Definition library : Library :=
  {| json_loads := loads;
     fromisoformat := iso;
     numeric_affinity := λ s, integer (list_ascii_of_string s);
     real_text := decimal;
     real_key := λ x, z ← whole x; if fits_int64 z then Some z else None |}.

End Reference.

(** ** Proof steps *)

(** Open the handlers, and run the exception plumbing of their bodies. *)
Ltac unfold_handlers :=
  unfold create_todo, get_todos, complete_todo, delete_todo, add_reminder,
    get_reminders, delete_reminder, add_calendar_entry,
    get_calendar_entries, delete_calendar_entry in *.

Ltac step_attempt :=
  unfold run, committed, raise, mret, mbind, attempt_ret, attempt_bind,
    ReminderResponse_from_orm, CalendarEventResponse_from_orm, required in *;
  simpl in *.

(** * Running the reference instance *)

Example loads_object :
  Reference.loads (Reference.dq "{ 'title' : 'Buy milk', 'id': -12, 'tags': [true, null] }")
  = Some (JObj (<["tags" := JArr [JBool true; JNull]]>
               (<["id" := JNum (-12)]> (<["title" := JStr "Buy milk"]> ∅)))).
Proof. vm_compute. reflexivity. Qed.

Example loads_rejects : Reference.loads (Reference.dq "{'title': }") = None.
Proof. vm_compute. reflexivity. Qed.

Example iso_accepts :
  Reference.iso "2024-01-01T10:00:00" = Some (mk_datetime 2024 1 1 10 0 0 0).
Proof. vm_compute. reflexivity. Qed.

Example iso_rejects : Reference.iso "not-a-date" = None.
Proof. vm_compute. reflexivity. Qed.

(** * Properties *)

Lemma every_endpoint_listed e : e ∈ endpoints ∧ length endpoints = 10%nat.
Proof. split; [|done]. destruct e; unfold endpoints; set_solver. Qed.

(** ** The scan of the tool calls *)

Lemma find_tool_call_none expected cs :
  Forall (λ c, name_of c ≠ expected) cs → find_tool_call expected cs = None.
Proof.
  induction 1 as [|c cs Hc _ IH]; simpl; [done|].
  unfold name_of in Hc. by destruct (decide _).
Qed.

Lemma find_tool_call_app expected before tool_call after :
  Forall (λ c, name_of c ≠ expected) before →
  name_of tool_call = expected →
  find_tool_call expected (before ++ tool_call :: after) = Some tool_call.
Proof.
  intros Hbefore Hname.
  induction Hbefore as [|c cs Hc _ IH]; simpl.
  - unfold name_of in Hname. by destruct (decide _).
  - unfold name_of in Hc. by destruct (decide _).
Qed.

Lemma find_tool_call_first expected request tool_call :
  first_matching expected request tool_call →
  find_tool_call expected (calls request) = Some tool_call.
Proof.
  intros (before & after & -> & Hbefore & Hname).
  by apply find_tool_call_app.
Qed.

Lemma find_tool_call_some expected cs tool_call :
  find_tool_call expected cs = Some tool_call →
  ∃ before after,
    cs = before ++ tool_call :: after
    ∧ Forall (λ c, name_of c ≠ expected) before
    ∧ name_of tool_call = expected.
Proof.
  induction cs as [|c cs IH]; simpl; [done|].
  destruct (decide _) as [Heq|Hne]; intros Hfind.
  - simplify_eq. by exists [], cs.
  - destruct (IH Hfind) as (before & after & -> & Hbefore & Hname).
    exists (c :: before), after. split_and!; [done| |done].
    by constructor.
Qed.

(** A handler looks at its request only through the first matching call. *)
Lemma handle_through_find `{Library} e request request' db :
  find_tool_call (expected_name e) (calls request)
  = find_tool_call (expected_name e) (calls request') →
  handle e request db = handle e request' db.
Proof.
  intros Hfind.
  destruct e; simpl in *; unfold_handlers; by rewrite Hfind.
Qed.

Lemma handle_first `{Library} e request tool_call db :
  first_matching (expected_name e) request tool_call →
  handle e request db = handle e (request_of [tool_call]) db.
Proof.
  intros Hfirst. apply handle_through_find.
  rewrite (find_tool_call_first _ _ _ Hfirst).
  destruct Hfirst as (_ & _ & _ & _ & Hname).
  symmetry. by apply (find_tool_call_app _ [] tool_call []).
Qed.

(** ** Requests without the expected call *)

(** C2. For each of the ten endpoints, a request none of whose tool calls
    carries the endpoint's function name is answered with HTTP 400
    ('Invalid Request' for the to-do routes, 'Invalid request' for the
    others) and leaves the store as it was, whatever other calls the list
    holds. *)
Theorem no_matching_call_is_invalid_request `{Library} e request db :
  Forall (λ c, name_of c ≠ expected_name e) (calls request) →
  ∃ detail,
    handle e request db = (Error (HTTPException 400 detail), db)
    ∧ (detail = "Invalid Request" ∨ detail = "Invalid request").
Proof.
  intros Hnone. apply find_tool_call_none in Hnone.
  destruct e; simpl in *; unfold_handlers; rewrite Hnone; eauto.
Qed.

Lemma no_matching_call_is_invalid_request_witness :
  ∃ detail,
    @handle Reference.library DeleteReminder
      (request_of [ call "call_1" "getTodos" (ArgDict ∅);
                    call "call_2" "deleteTodo" (ArgDict {[ "id" := JNum 1 ]}) ])
      empty_store
    = (Error (HTTPException 400 detail), empty_store)
    ∧ (detail = "Invalid Request" ∨ detail = "Invalid request").
Proof.
  apply (@no_matching_call_is_invalid_request Reference.library).
  repeat constructor; discriminate.
Defined.

(** ** The result envelope *)

Lemma handler_returns_envelope `{Library} e request tool_call db body db' :
  find_tool_call (expected_name e) (calls request) = Some tool_call →
  handle e request db = (Results body, db') →
  ∃ p, body = [ {| toolCallId := ToolCall.id tool_call; result := p |} ].
Proof.
  intros Hfind.
  destruct e; simpl in *; unfold_handlers; rewrite Hfind; unfold envelope;
    step_attempt; intros Hout;
    repeat (case_match; simplify_eq; step_attempt); eauto.
Qed.

(** C3. A successful response of any endpoint is the envelope
    [{'results': [{'toolCallId': id, 'result': payload}]}] with exactly one
    entry; its id is that of the first tool call of the list carrying the
    endpoint's function name, and the calls after that one are ignored:
    replacing them by any others changes neither the response nor the
    store. *)
Theorem successful_response_is_one_result `{Library} e request db body db' :
  handle e request db = (Results body, db') →
  ∃ before tool_call after p,
    calls request = before ++ tool_call :: after
    ∧ Forall (λ c, name_of c ≠ expected_name e) before
    ∧ name_of tool_call = expected_name e
    ∧ body = [ {| toolCallId := ToolCall.id tool_call; result := p |} ]
    ∧ ∀ after',
        handle e (request_of (before ++ tool_call :: after')) db
        = (Results body, db').
Proof.
  intros Hout.
  destruct (find_tool_call (expected_name e) (calls request))
    as [tool_call|] eqn:Hfind.
  - destruct (find_tool_call_some _ _ _ Hfind)
      as (before & after & Hcalls & Hbefore & Hname).
    destruct (handler_returns_envelope _ _ _ _ _ _ Hfind Hout) as [p ->].
    exists before, tool_call, after, p. split_and!; try done.
    intros after'. rewrite <- Hout. apply handle_through_find.
    rewrite Hfind. by apply find_tool_call_app.
  - exfalso. revert Hout.
    destruct e; simpl in *; unfold_handlers; by rewrite Hfind.
Qed.

Lemma successful_response_is_one_result_witness :
  ∃ before tool_call after p,
    [ call "call_1" "getTodos" (ArgDict ∅);
      call "call_2" "createTodo" (ArgDict {[ "title" := JStr "Buy milk" ]});
      call "call_3" "createTodo" (ArgDict {[ "title" := JStr "Buy eggs" ]}) ]
    = before ++ tool_call :: after
    ∧ Forall (λ c, name_of c ≠ "createTodo") before
    ∧ name_of tool_call = "createTodo"
    ∧ [ {| toolCallId := "call_2"; result := PStr "success" |} ]
      = [ {| toolCallId := ToolCall.id tool_call; result := p |} ]
    ∧ ∀ after',
        @handle Reference.library CreateTodo
          (request_of (before ++ tool_call :: after')) empty_store
        = (Results [ {| toolCallId := "call_2"; result := PStr "success" |} ],
           set_todos {[ 1 := Todo.mk (Some "Buy milk") (Some "") false ]}
             empty_store).
Proof.
  apply (@successful_response_is_one_result Reference.library CreateTodo
    (request_of
       [ call "call_1" "getTodos" (ArgDict ∅);
         call "call_2" "createTodo" (ArgDict {[ "title" := JStr "Buy milk" ]});
         call "call_3" "createTodo" (ArgDict {[ "title" := JStr "Buy eggs" ]}) ])
    empty_store).
  vm_compute. reflexivity.
Defined.

(** ** Arguments as a string and as an object *)

Lemma find_tool_call_replace expected before c1 c2 after :
  name_of c1 = name_of c2 →
  find_tool_call expected (before ++ c1 :: after)
  = find_tool_call expected (before ++ c2 :: after)
  ∨ (find_tool_call expected (before ++ c1 :: after) = Some c1
     ∧ find_tool_call expected (before ++ c2 :: after) = Some c2).
Proof.
  unfold name_of. intros Hname.
  induction before as [|c before IH]; simpl.
  - rewrite Hname. destruct (decide _); auto.
  - destruct (decide _); auto.
Qed.

Lemma load_arguments_encoded `{Library} s a :
  json_loads s = Some (JObj a) →
  load_arguments (ArgStr s) = load_arguments (ArgDict a).
Proof. intros Hs. simpl. by rewrite Hs. Qed.

(** C4. For every endpoint and every JSON object [a], a request whose
    tool call carries the arguments as a string that decodes to [a] and
    the same request carrying [a] itself get the same response and leave
    the same store. *)
Theorem encoded_arguments_are_handled_alike `{Library}
    e before after id name a s db :
  json_loads s = Some (JObj a) →
  handle e (request_of (before ++ call id name (ArgStr s) :: after)) db
  = handle e (request_of (before ++ call id name (ArgDict a) :: after)) db.
Proof.
  intros Hs.
  destruct (find_tool_call_replace (expected_name e) before
              (call id name (ArgStr s)) (call id name (ArgDict a)) after)
    as [Hsame|[H1 H2]]; [done| |].
  - by apply handle_through_find.
  - pose proof (load_arguments_encoded _ _ Hs) as Hload.
    destruct e; simpl in *; unfold_handlers; unfold calls; simpl;
      rewrite H1, H2; unfold arguments_of, envelope; simpl;
      try rewrite Hs; reflexivity.
Qed.

Lemma encoded_arguments_are_handled_alike_witness :
  @handle Reference.library AddReminder
    (request_of
       [ call "call_1" "addReminder"
           (ArgStr (Reference.dq
              "{'reminder_text': 'Call mom', 'importance': 'high'}")) ])
    empty_store
  = @handle Reference.library AddReminder
      (request_of
         [ call "call_1" "addReminder"
             (ArgDict (<["importance" := JStr "high"]>
                         {[ "reminder_text" := JStr "Call mom" ]})) ])
      empty_store.
Proof.
  apply (@encoded_arguments_are_handled_alike Reference.library AddReminder
           [] [] "call_1" "addReminder").
  vm_compute. reflexivity.
Defined.

(** ** The id argument *)

Lemma load_arguments_carries `{Library} tool_call a :
  carries tool_call a → load_arguments (arguments_of tool_call) = inr a.
Proof.
  unfold carries. destruct (arguments_of tool_call) as [s|d]; simpl.
  - by intros ->.
  - by intros ->.
Qed.

(** C9. On the four routes that take an id, an ['id'] argument that is
    present but is the integer 0, the empty string or null is answered
    with HTTP 400 and the missing-id message of the route (hence not with
    404), and the store is left as it was. *)
Theorem falsy_id_is_a_missing_id `{Library} e request tool_call a v db :
  takes_id e = true →
  first_matching (expected_name e) request tool_call →
  carries tool_call a →
  a !! "id" = Some v →
  v ∈ [JNum 0; JStr ""; JNull] →
  handle e request db = (Error (HTTPException 400 (missing_id_detail e)), db).
Proof.
  intros He Hfirst Hargs Hid Hv.
  apply find_tool_call_first in Hfirst.
  apply load_arguments_carries in Hargs.
  rewrite !elem_of_cons, elem_of_nil in Hv.
  destruct e; try discriminate He; simpl in *; unfold_handlers;
    rewrite Hfirst, Hargs; step_attempt; unfold get_or_none, get;
    rewrite Hid; destruct Hv as [->|[->|[->|[]]]]; reflexivity.
Qed.

Lemma falsy_id_is_a_missing_id_witness :
  @handle Reference.library DeleteReminder
    (request_of
       [ call "call_1" "deleteReminder"
           (ArgStr (Reference.dq "{'id': 0}")) ])
    empty_store
  = (Error (HTTPException 400 "Missing reminder ID"), empty_store).
Proof.
  apply (@falsy_id_is_a_missing_id Reference.library DeleteReminder
           _ (call "call_1" "deleteReminder"
                (ArgStr (Reference.dq "{'id': 0}")))
           {[ "id" := JNum 0 ]} (JNum 0)).
  - reflexivity.
  - exists [], []. split_and!; [reflexivity|constructor|reflexivity].
  - vm_compute. reflexivity.
  - vm_compute. reflexivity.
  - apply elem_of_cons. by left.
Defined.

(** C6, as stated, fails on an id the table does not hold when that id is
    falsy: no to-do has key 0 in the empty store, and [deleteTodo] on
    [{'id': 0}] is answered with 400 'Missing To-Do ID', not with 404. *)
Lemma absent_falsy_id_is_not_404 :
  has_row DeleteTodo 0 empty_store = false
  ∧ @handle Reference.library DeleteTodo
      (request_of [ call "call_1" "deleteTodo" (ArgDict {[ "id" := JNum 0 ]}) ])
      empty_store
    = (Error (HTTPException 400 "Missing To-Do ID"), empty_store)
  ∧ status_of
      (@handle Reference.library DeleteTodo
         (request_of
            [ call "call_1" "deleteTodo" (ArgDict {[ "id" := JNum 0 ]}) ])
         empty_store).1
    ≠ 404.
Proof. vm_compute. split_and!; [reflexivity|reflexivity|discriminate]. Qed.

(** C6, amended. On completeTodo, deleteTodo, deleteReminder and
    deleteCalendarEntry, when the ['id'] argument is a non-zero integer
    that fits the engine's 64-bit keys: if the table holds no row under
    that id the answer is HTTP 404 and the store is unchanged; if it holds
    one, the request succeeds with one result for the call and the store
    is the old one with that to-do marked completed, respectively with
    that row removed. *)
Theorem lookup_by_id_finds_or_404 `{Library} e request tool_call a n db :
  takes_id e = true →
  first_matching (expected_name e) request tool_call →
  carries tool_call a →
  a !! "id" = Some (JNum n) →
  n ≠ 0 →
  fits_int64 n = true →
  if has_row e n db
  then ∃ p, handle e request db = (envelope tool_call p, mutated e n db)
  else handle e request db = (Error (HTTPException 404 (not_found_detail e)), db).
Proof.
  intros He Hfirst Hargs Hid Hn Hfits.
  apply find_tool_call_first in Hfirst.
  apply load_arguments_carries in Hargs.
  assert (negb (n =? 0) = true) as Htruthy
    by (apply negb_true_iff, Z.eqb_neq, Hn).
  destruct e; try discriminate He; simpl in *; unfold_handlers;
    rewrite Hfirst, Hargs; step_attempt; unfold get_or_none, get;
    rewrite Hid; simpl; rewrite Htruthy, Hfits; simpl;
    unfold first_by_id; simpl.
  - destruct (todos db !! n) as [todo|] eqn:Hrow; simpl; [|done].
    eexists. by rewrite (alter_alt_Some _ _ _ _ Hrow).
  - destruct (todos db !! n) as [todo|] eqn:Hrow; simpl; [by eexists|done].
  - destruct (reminders db !! n) as [row|] eqn:Hrow; simpl; [by eexists|done].
  - destruct (calendar_events db !! n) as [row|] eqn:Hrow; simpl;
      [by eexists|done].
Qed.

Lemma lookup_by_id_finds_or_404_witness :
  (if has_row DeleteTodo 1
        (set_todos {[ 1 := Todo.mk (Some "Buy milk") (Some "") false ]}
           empty_store)
   then ∃ p,
     @handle Reference.library DeleteTodo
       (request_of [ call "call_1" "deleteTodo" (ArgDict {[ "id" := JNum 1 ]}) ])
       (set_todos {[ 1 := Todo.mk (Some "Buy milk") (Some "") false ]}
          empty_store)
     = (envelope (call "call_1" "deleteTodo" (ArgDict {[ "id" := JNum 1 ]})) p,
        mutated DeleteTodo 1
          (set_todos {[ 1 := Todo.mk (Some "Buy milk") (Some "") false ]}
             empty_store))
   else
     @handle Reference.library DeleteTodo
       (request_of [ call "call_1" "deleteTodo" (ArgDict {[ "id" := JNum 1 ]}) ])
       (set_todos {[ 1 := Todo.mk (Some "Buy milk") (Some "") false ]}
          empty_store)
     = (Error (HTTPException 404 (not_found_detail DeleteTodo)),
        set_todos {[ 1 := Todo.mk (Some "Buy milk") (Some "") false ]}
          empty_store))
  ∧ mutated DeleteTodo 1
      (set_todos {[ 1 := Todo.mk (Some "Buy milk") (Some "") false ]}
         empty_store)
    = empty_store.
Proof.
  split.
  - apply (@lookup_by_id_finds_or_404 Reference.library DeleteTodo
             _ _ {[ "id" := JNum 1 ]} 1).
    + reflexivity.
    + exists [], []. split_and!; [reflexivity|constructor|reflexivity].
    + reflexivity.
    + vm_compute. reflexivity.
    + lia.
    + reflexivity.
  - vm_compute. reflexivity.
Defined.

(** ** Keys of inserted rows *)

Lemma foldr_max_upper (k : Z) (ks : list Z) x :
  x ∈ k :: ks → x ≤ foldr Z.max k ks.
Proof.
  induction ks as [|k' ks IH]; simpl.
  - rewrite list_elem_of_singleton. lia.
  - rewrite !elem_of_cons. intros [->|[->|Hx]].
    + assert (k ≤ foldr Z.max k ks) by (apply IH; left). lia.
    + lia.
    + assert (x ≤ foldr Z.max k ks) by (apply IH; by right). lia.
Qed.

Lemma next_id_above {A} (table : gmap Z A) k :
  is_Some (table !! k) → k < next_id table.
Proof.
  intros [row Hrow]. unfold next_id.
  assert (k ∈ (map_to_list table).*1) as Hk.
  { apply list_elem_of_fmap. exists (k, row). split; [done|].
    by apply elem_of_map_to_list. }
  destruct ((map_to_list table).*1) as [|k0 ks].
  - by apply elem_of_nil in Hk.
  - apply foldr_max_upper in Hk. lia.
Qed.

Lemma next_id_fresh {A} (table : gmap Z A) : table !! next_id table = None.
Proof.
  destruct (table !! next_id table) as [row|] eqn:Hrow; [|done].
  assert (next_id table < next_id table) by (apply next_id_above; eauto).
  lia.
Qed.

Lemma first_by_id_Some {A} (table : gmap Z A) key k row :
  first_by_id table key = Some (k, row) → table !! k = Some row.
Proof.
  unfold first_by_id. destruct key as [k'|]; simpl; [|done].
  destruct (table !! k') as [row'|] eqn:Hrow; simpl; [|done].
  by intros [= <- <-].
Qed.

Lemma size_delete_row {A} (table : gmap Z A) k row :
  table !! k = Some row → size table = S (size (delete k table)).
Proof.
  intros Hrow. rewrite <- (insert_delete_id table k row) at 1 by done.
  by rewrite map_size_insert_None by apply lookup_delete_eq.
Qed.

(** ** completeTodo twice *)

Lemma next_id_positive {A} (table : gmap Z A) :
  map_Forall (λ k _, 0 < k) table → 0 < next_id table.
Proof.
  intros Hkeys. unfold next_id.
  destruct (map_to_list table) as [|[k row] l] eqn:Hl; [done|].
  assert (0 < k) as Hk.
  { apply (Hkeys k row), elem_of_map_to_list. rewrite Hl. left. }
  assert (k ≤ foldr Z.max k l.*1) by (apply foldr_max_upper; left).
  change (0 < foldr Z.max k l.*1 + 1). lia.
Qed.

Lemma handle_keeps_keys_positive `{Library} e request db :
  keys_positive db → keys_positive (handle e request db).2.
Proof.
  intros (Htodos & Hreminders & Hevents).
  pose proof (next_id_positive _ Htodos).
  pose proof (next_id_positive _ Hreminders).
  pose proof (next_id_positive _ Hevents).
  destruct e; simpl; unfold_handlers;
    (destruct (find_tool_call _ _) as [tool_call|]; [|done]);
    step_attempt;
    repeat (case_match; simplify_eq; step_attempt); try done;
    try match goal with
    | Hrow : first_by_id _ _ = Some _ |- _ => apply first_by_id_Some in Hrow
    end;
    unfold keys_positive; simpl; split_and!; try done;
    try (by apply map_Forall_insert_2);
    try (by apply map_Forall_delete).
  by apply map_Forall_insert_2; [eapply (Htodos _ _); eauto|].
Qed.

Lemma reachable_keys_positive `{Library} db : reachable db → keys_positive db.
Proof.
  induction 1 as [|e request db _ IH].
  - split_and!; apply map_Forall_empty.
  - by apply handle_keeps_keys_positive.
Qed.

(** C7. In a store the service can reach, for every to-do id present
    (below the engine's bound 2^63 on keys), completeTodo with that id
    succeeds, and succeeds again on the store it left; the to-do is
    completed after each call, and the second call leaves the whole store,
    every field of every row, exactly as the first call left it. *)
Theorem complete_todo_idempotent `{Library} request tool_call a n todo db :
  reachable db →
  todos db !! n = Some todo →
  n < 2 ^ 63 →
  first_matching "completeTodo" request tool_call →
  carries tool_call a →
  a !! "id" = Some (JNum n) →
  ∃ db1,
    complete_todo request db = (envelope tool_call (PStr "success"), db1)
    ∧ Todo.completed <$> todos db1 !! n = Some true
    ∧ complete_todo request db1 = (envelope tool_call (PStr "success"), db1).
Proof.
  intros (Hkeys & _)%reachable_keys_positive Hrow Hbound Hfirst Hargs Hid.
  assert (0 < n) as Hn by (by apply (Hkeys n todo)).
  apply find_tool_call_first in Hfirst.
  apply load_arguments_carries in Hargs.
  assert (negb (n =? 0) = true) as Htruthy
    by (apply negb_true_iff, Z.eqb_neq; lia).
  assert (fits_int64 n = true) as Hfits
    by (unfold fits_int64; apply andb_true_iff; split;
        [apply Z.leb_le|apply Z.ltb_lt]; lia).
  exists (set_todos (<[n := set_completed true todo]> (todos db)) db).
  unfold complete_todo.
  rewrite Hfirst, Hargs; step_attempt; unfold get_or_none, get;
    rewrite Hid; simpl; rewrite Htruthy, Hfits; simpl;
    unfold first_by_id; simpl.
  rewrite Hrow, lookup_insert_eq. simpl. split_and!; [done|done|].
  by rewrite insert_insert_eq.
Qed.

Lemma complete_todo_idempotent_witness :
  ∃ db1,
    @complete_todo Reference.library
      (request_of
         [ call "call_2" "completeTodo" (ArgStr (Reference.dq "{'id': 1}")) ])
      (@handle Reference.library CreateTodo
         (request_of
            [ call "call_1" "createTodo"
                (ArgDict {[ "title" := JStr "Buy milk" ]}) ])
         empty_store).2
    = (envelope
         (call "call_2" "completeTodo" (ArgStr (Reference.dq "{'id': 1}")))
         (PStr "success"),
       db1)
    ∧ Todo.completed <$> todos db1 !! 1 = Some true
    ∧ @complete_todo Reference.library
        (request_of
           [ call "call_2" "completeTodo" (ArgStr (Reference.dq "{'id': 1}")) ])
        db1
      = (envelope
           (call "call_2" "completeTodo" (ArgStr (Reference.dq "{'id': 1}")))
           (PStr "success"),
         db1).
Proof.
  apply (@complete_todo_idempotent Reference.library _ _
           {[ "id" := JNum 1 ]} 1
           (Todo.mk (Some "Buy milk") (Some "") false)).
  - apply reachable_request, reachable_start.
  - vm_compute. reflexivity.
  - lia.
  - exists [], []. split_and!; [reflexivity|constructor|reflexivity].
  - vm_compute. reflexivity.
  - vm_compute. reflexivity.
Defined.

(** ** createTodo without a title *)

(** C1 does not hold of the code.  [createTodo] with arguments [{}] is
    answered with 'success', not with 400, and a to-do with the empty
    title is stored: [create_todo] reads the title as
    [add_calendar_entry] does, but lacks the check that follows there. *)
Lemma create_todo_without_title_succeeds :
  @handle Reference.library CreateTodo
    (request_of [ call "call_1" "createTodo" (ArgDict ∅) ])
    empty_store
  = (Results [ {| toolCallId := "call_1"; result := PStr "success" |} ],
     set_todos {[ 1 := Todo.mk (Some "") (Some "") false ]} empty_store)
  ∧ size (todos
      (@handle Reference.library CreateTodo
         (request_of [ call "call_1" "createTodo" (ArgDict ∅) ])
         empty_store).2) = 1%nat.
Proof. vm_compute. split; reflexivity. Qed.

(** What [create_todo] does without a title, on any store: when the
    arguments of the first createTodo call lack ['title'] (and the
    description is one the column can store), the endpoint answers
    'success' and stores, under a new key, a to-do that is not completed
    and has the empty string as its title. *)
Theorem create_todo_defaults_missing_title `{Library}
    request tool_call a description db :
  first_matching "createTodo" request tool_call →
  carries tool_call a →
  a !! "title" = None →
  bind_text (get a "description" (JStr "")) = inr description →
  todos db !! next_id (todos db) = None
  ∧ create_todo request db
    = (envelope tool_call (PStr "success"),
       set_todos
         (<[next_id (todos db) := Todo.mk (Some "") description false]>
            (todos db))
         db).
Proof.
  intros Hfirst Hargs Htitle Hdescription.
  apply find_tool_call_first in Hfirst.
  apply load_arguments_carries in Hargs.
  split; [apply next_id_fresh|].
  unfold create_todo. rewrite Hfirst, Hargs. step_attempt.
  unfold get at 1. rewrite Htitle. simpl.
  by rewrite Hdescription.
Qed.

Lemma create_todo_defaults_missing_title_witness :
  todos empty_store !! next_id (todos empty_store) = None
  ∧ @create_todo Reference.library
      (request_of
         [ call "call_1" "createTodo"
             (ArgStr (Reference.dq "{'description': 'two litres'}")) ])
      empty_store
    = (envelope
         (call "call_1" "createTodo"
            (ArgStr (Reference.dq "{'description': 'two litres'}")))
         (PStr "success"),
       set_todos
         (<[next_id (todos empty_store)
            := Todo.mk (Some "") (Some "two litres") false]>
            (todos empty_store))
         empty_store).
Proof.
  apply (@create_todo_defaults_missing_title Reference.library _ _
           {[ "description" := JStr "two litres" ]}).
  - exists [], []. split_and!; [reflexivity|constructor|reflexivity].
  - vm_compute. reflexivity.
  - vm_compute. reflexivity.
  - vm_compute. reflexivity.
Defined.

(** ** Timestamps of a calendar entry *)

(** C5, as stated, fails: with a malformed ['event_to'] the answer is not
    always the date-format message.  Without a title (the arguments of
    the scenario as the specification writes them), and with a title but
    the empty string as ['event_to'], the answer is 400 'Missing required
    fields'. *)
Lemma malformed_timestamp_without_date_message :
  Reference.iso "not-a-date" = None
  ∧ Reference.iso "" = None
  ∧ @handle Reference.library AddCalendarEntry
      (request_of
         [ call "call_1" "addCalendarEntry"
             (ArgDict (<["event_to" := JStr "not-a-date"]>
                         {[ "event_from" := JStr "2024-01-01T10:00:00" ]})) ])
      empty_store
    = (Error (HTTPException 400 "Missing required fields"), empty_store)
  ∧ @handle Reference.library AddCalendarEntry
      (request_of
         [ call "call_1" "addCalendarEntry"
             (ArgDict (<["event_to" := JStr ""]>
                      (<["event_from" := JStr "2024-01-01T10:00:00"]>
                         {[ "title" := JStr "Standup" ]}))) ])
      empty_store
    = (Error (HTTPException 400 "Missing required fields"), empty_store)
  ∧ "Missing required fields" ≠ "Invalid date format. Use ISO format.".
Proof. vm_compute. split_and!; try reflexivity. discriminate. Qed.

(** C5, amended. On /add_calendar_entry/, ['event_from'] and ['event_to']
    are required: when either is absent or the empty string the answer is
    HTTP 400 'Missing required fields'.  When the title is supplied and
    truthy and both timestamps are non-empty strings, of which at least
    one does not parse as an ISO timestamp, the answer is HTTP 400
    'Invalid date format. Use ISO format.'.  In both cases no calendar
    event is stored: the store is unchanged. *)
Theorem malformed_timestamp_is_rejected `{Library} request tool_call a db :
  first_matching "addCalendarEntry" request tool_call →
  carries tool_call a →
  (a !! "event_from" ∈ [None; Some (JStr "")]
   ∨ a !! "event_to" ∈ [None; Some (JStr "")] →
   add_calendar_entry request db
   = (Error (HTTPException 400 "Missing required fields"), db))
  ∧ (∀ title event_from_str event_to_str,
       a !! "title" = Some title →
       truthy title = true →
       a !! "event_from" = Some (JStr event_from_str) →
       a !! "event_to" = Some (JStr event_to_str) →
       event_from_str ≠ "" →
       event_to_str ≠ "" →
       fromisoformat event_from_str = None
       ∨ fromisoformat event_to_str = None →
       add_calendar_entry request db
       = (Error (HTTPException 400 "Invalid date format. Use ISO format."),
          db)).
Proof.
  intros Hfirst Hargs.
  apply find_tool_call_first in Hfirst.
  apply load_arguments_carries in Hargs.
  unfold add_calendar_entry. rewrite Hfirst, Hargs. step_attempt.
  unfold get. split.
  - rewrite !elem_of_cons, !elem_of_nil.
    intros [[->|[->|[]]]|[->|[->|[]]]]; simpl;
      by rewrite ?orb_true_r.
  - intros title event_from_str event_to_str
      -> Htitle -> -> Hfrom Hto Hbad. simpl.
    rewrite Htitle.
    destruct event_from_str; [done|]. destruct event_to_str; [done|].
    simpl. destruct Hbad as [-> | Hbad]; [done|].
    destruct (fromisoformat (String _ event_from_str)); simpl;
      [by rewrite Hbad|done].
Qed.

Lemma malformed_timestamp_is_rejected_witness :
  @add_calendar_entry Reference.library
    (request_of
       [ call "call_1" "addCalendarEntry"
           (ArgDict (<["event_to" := JStr "not-a-date"]>
                    (<["event_from" := JStr "2024-01-01T10:00:00"]>
                       {[ "title" := JStr "Standup" ]}))) ])
    empty_store
  = (Error (HTTPException 400 "Invalid date format. Use ISO format."),
     empty_store).
Proof.
  apply (proj2 (@malformed_timestamp_is_rejected Reference.library
           (request_of
              [ call "call_1" "addCalendarEntry"
                  (ArgDict (<["event_to" := JStr "not-a-date"]>
                           (<["event_from" := JStr "2024-01-01T10:00:00"]>
                              {[ "title" := JStr "Standup" ]}))) ])
           _ _ empty_store
           ltac:(exists [], []; split_and!; [reflexivity|constructor|reflexivity])
           ltac:(reflexivity))
         (JStr "Standup") "2024-01-01T10:00:00" "not-a-date").
  - vm_compute. reflexivity.
  - reflexivity.
  - vm_compute. reflexivity.
  - vm_compute. reflexivity.
  - discriminate.
  - discriminate.
  - right. vm_compute. reflexivity.
Defined.

(** ** Required text fields *)

(** C10 does not hold of the code.  A NaN is truthy, so it passes
    [if not reminder_text or not importance] and [if not title ...]; the
    engine stores it as NULL, the row is committed, and only then does
    the response model refuse it.  [addReminder] with a NaN text leaves
    a reminder whose text is NULL and answers 500, and so does
    [addCalendarEntry] with a NaN title. *)
Theorem nan_required_text_is_stored_as_null :
  truthy (JFloat S754_nan) = true
  ∧ @handle Reference.library AddReminder
      (request_of
         [ call "call_1" "addReminder"
             (ArgStr (Reference.dq
                "{'reminder_text': NaN, 'importance': 'high'}")) ])
      empty_store
    = (Error OtherException,
       set_reminders {[ 1 := Reminder.mk None (Some "high") ]} empty_store)
  ∧ @handle Reference.library AddCalendarEntry
      (request_of
         [ call "call_1" "addCalendarEntry"
             (ArgStr (Reference.dq
                "{'title': NaN, 'event_from': '2024-01-01T10:00:00', 'event_to': '2024-01-01T11:00:00'}")) ])
      empty_store
    = (Error OtherException,
       set_calendar_events
         {[ 1 := CalendarEvent.mk None (Some "")
                   (Some (mk_datetime 2024 1 1 10 0 0 0))
                   (Some (mk_datetime 2024 1 1 11 0 0 0)) ]}
         empty_store).
Proof. vm_compute. split_and!; reflexivity. Qed.

(** ** Listing a table *)

Lemma for_each_total {A B} (f : A → attempt B) xs :
  Forall (λ x, ∃ y, f x = inr y) xs →
  ∃ ys, for_each f xs = inr ys ∧ length ys = length xs.
Proof.
  induction 1 as [|x xs [y Hy] _ (ys & Hys & Hlen)]; simpl.
  - by exists [].
  - exists (y :: ys). rewrite Hy. step_attempt. rewrite Hys. simpl.
    by rewrite Hlen.
Qed.

(** On empty tables the three listings are empty. *)
Lemma listing_of_empty_store `{Library} request tool_call :
  (first_matching "getTodos" request tool_call →
   get_todos request empty_store = (envelope tool_call (PTodos []), empty_store))
  ∧ (first_matching "getReminders" request tool_call →
     get_reminders request empty_store
     = (envelope tool_call (PReminders []), empty_store))
  ∧ (first_matching "getCalendarEntries" request tool_call →
     get_calendar_entries request empty_store
     = (envelope tool_call (PCalendarEvents []), empty_store)).
Proof.
  split_and!; intros Hfirst%find_tool_call_first;
    unfold get_todos, get_reminders, get_calendar_entries;
    rewrite Hfirst; simpl; by rewrite map_to_list_empty.
Qed.

(** A successful request changes the number of rows of its table by
    exactly one when it creates or deletes, and not at all otherwise. *)
Lemma successful_request_row_count `{Library} e request db body db' :
  handle e request db = (Results body, db') →
  if creates e then rows e db' = S (rows e db)
  else if deletes e then rows e db = S (rows e db')
  else rows e db' = rows e db.
Proof.
  destruct e; simpl; unfold_handlers;
    (destruct (find_tool_call _ _) as [tool_call|]; [|done]);
    step_attempt; intros Hout;
    repeat (case_match; simplify_eq; step_attempt);
    rewrite ?map_size_insert_None by apply next_id_fresh; try done;
    match goal with
    | Hrow : first_by_id _ _ = Some _ |- _ => apply first_by_id_Some in Hrow
    end.
  - apply map_size_insert_Some. eauto.
  - by eapply size_delete_row.
  - by eapply size_delete_row.
  - by eapply size_delete_row.
Qed.

(** The listing of the to-dos returns one item for every row when
    every stored title is a string. *)
Lemma get_todos_lists_every_row `{Library} request tool_call db :
  map_Forall (λ _ todo, is_Some (Todo.title todo)) (todos db) →
  first_matching "getTodos" request tool_call →
  ∃ l, get_todos request db = (envelope tool_call (PTodos l), db)
       ∧ length l = size (todos db).
Proof.
  intros Htitles Hfirst%find_tool_call_first.
  destruct (for_each_total TodoResponse_from_orm (map_to_list (todos db)))
    as (l & Hl & Hlen).
  { apply map_Forall_to_list in Htitles.
    eapply Forall_impl; [exact Htitles|].
    intros [k todo] [title Htitle]; simpl in *.
    unfold TodoResponse_from_orm; simpl. rewrite Htitle. by eexists. }
  exists l. unfold get_todos. rewrite Hfirst. step_attempt. rewrite Hl.
  by rewrite Hlen, length_map_to_list.
Qed.

(** C8 fails on the to-dos.  [createTodo] with [{'title': null}] succeeds
    and stores a to-do whose title is NULL; [TodoResponse] declares
    [title: str], so listing that row raises and [getTodos] is answered
    with status 500 instead of the one stored item. *)
Theorem get_todos_fails_after_null_title :
  @handle Reference.library CreateTodo
    (request_of
       [ call "call_1" "createTodo" (ArgDict {[ "title" := JNull ]}) ])
    empty_store
  = (Results [ {| toolCallId := "call_1"; result := PStr "success" |} ],
     set_todos {[ 1 := Todo.mk None (Some "") false ]} empty_store)
  ∧ @handle Reference.library GetTodos
      (request_of [ call "call_2" "getTodos" (ArgDict ∅) ])
      (set_todos {[ 1 := Todo.mk None (Some "") false ]} empty_store)
    = (Error OtherException,
       set_todos {[ 1 := Todo.mk None (Some "") false ]} empty_store)
  ∧ status_of
      (@handle Reference.library GetTodos
         (request_of [ call "call_2" "getTodos" (ArgDict ∅) ])
         (set_todos {[ 1 := Todo.mk None (Some "") false ]} empty_store)).1
    = 500.
Proof. vm_compute. split_and!; reflexivity. Qed.

(** * Further properties of the handlers *)

(** ** What a handler reads of its request *)

(** The answer to a request is the answer to the request reduced to its
    first call carrying the route's function name: the calls before it
    and after it count for nothing, on success as on failure, so a first
    matching call that is refused is not made up for by a later one. *)
Theorem only_first_matching_call_counts `{Library} e before tool_call after db :
  Forall (λ c, name_of c ≠ expected_name e) before →
  name_of tool_call = expected_name e →
  handle e (request_of (before ++ tool_call :: after)) db
  = handle e (request_of [tool_call]) db.
Proof.
  intros Hbefore Hname. apply handle_through_find. unfold calls; simpl.
  rewrite (find_tool_call_app _ before tool_call after Hbefore Hname).
  symmetry. by apply (find_tool_call_app _ [] tool_call []).
Qed.

Lemma only_first_matching_call_counts_witness :
  @handle Reference.library AddReminder
    (request_of
       ([ call "call_1" "getTodos" (ArgDict ∅) ]
        ++ call "call_2" "addReminder" (ArgDict {[ "importance" := JStr "high" ]})
        :: [ call "call_3" "addReminder"
               (ArgDict (<["importance" := JStr "high"]>
                           {[ "reminder_text" := JStr "Call mom" ]})) ]))
    empty_store
  = @handle Reference.library AddReminder
      (request_of
         [ call "call_2" "addReminder"
             (ArgDict {[ "importance" := JStr "high" ]}) ])
      empty_store
  ∧ @handle Reference.library AddReminder
      (request_of
         [ call "call_2" "addReminder"
             (ArgDict {[ "importance" := JStr "high" ]}) ])
      empty_store
    = (Error (HTTPException 400 "Missing required fields"), empty_store).
Proof.
  split.
  - apply (@only_first_matching_call_counts Reference.library AddReminder).
    + repeat constructor. discriminate.
    + reflexivity.
  - vm_compute. reflexivity.
Defined.

(** The three listing routes never look at the arguments of their call,
    which may even be a string that is not JSON, and never write: the
    store they leave is the one they found, whatever they answer. *)
Theorem listing_ignores_arguments `{Library}
    e before after id name args args' db :
  lists e = true →
  handle e (request_of (before ++ call id name args :: after)) db
  = handle e (request_of (before ++ call id name args' :: after)) db
  ∧ (handle e (request_of (before ++ call id name args :: after)) db).2 = db.
Proof.
  intros He. split.
  - destruct (find_tool_call_replace (expected_name e) before
                (call id name args) (call id name args') after)
      as [Hsame|[H1 H2]]; [done| |].
    + by apply handle_through_find.
    + destruct e; try discriminate He; simpl in *; unfold_handlers;
        unfold calls; simpl; by rewrite H1, H2.
  - destruct e; try discriminate He; simpl; unfold_handlers;
      (destruct (find_tool_call _ _); [|done]); step_attempt;
      by destruct (for_each _ _).
Qed.

Lemma listing_ignores_arguments_witness :
  @handle Reference.library GetTodos
    (request_of ([] ++ call "call_1" "getTodos" (ArgStr "not json") :: []))
    empty_store
  = @handle Reference.library GetTodos
      (request_of ([] ++ call "call_1" "getTodos" (ArgDict ∅) :: []))
      empty_store
  ∧ (@handle Reference.library GetTodos
       (request_of ([] ++ call "call_1" "getTodos" (ArgStr "not json") :: []))
       empty_store).2
    = empty_store.
Proof.
  apply (@listing_ignores_arguments Reference.library GetTodos).
  reflexivity.
Defined.

(** On the seven routes that read their arguments, arguments given as a
    string that [json.loads] rejects, or that decodes to something other
    than an object, make the handler raise an exception it does not
    catch: the answer is status 500 and the store is unchanged. *)
Theorem undecodable_arguments_are_a_server_error `{Library}
    e request tool_call s db :
  lists e = false →
  first_matching (expected_name e) request tool_call →
  arguments_of tool_call = ArgStr s →
  (json_loads s = None
   ∨ ∃ v, json_loads s = Some v ∧ ∀ o, v ≠ JObj o) →
  handle e request db = (Error OtherException, db).
Proof.
  intros He Hfirst%find_tool_call_first Hargs Hs.
  assert (load_arguments (arguments_of tool_call) = inl OtherException)
    as Hload.
  { rewrite Hargs. simpl. destruct Hs as [->|(v & -> & Hv)]; [done|].
    destruct v; try done. by destruct (Hv o). }
  destruct e; try discriminate He; simpl in *; unfold_handlers;
    by rewrite Hfirst, Hload.
Qed.

Lemma undecodable_arguments_are_a_server_error_witness :
  @handle Reference.library CreateTodo
    (request_of [ call "call_1" "createTodo" (ArgStr "[1, 2]") ])
    empty_store
  = (Error OtherException, empty_store).
Proof.
  apply (@undecodable_arguments_are_a_server_error Reference.library
           CreateTodo _ (call "call_1" "createTodo" (ArgStr "[1, 2]"))
           "[1, 2]").
  - reflexivity.
  - exists [], []. split_and!; [reflexivity|constructor|reflexivity].
  - reflexivity.
  - right. exists (JArr [JNum 1; JNum 2]).
    split; [vm_compute; reflexivity|discriminate].
Defined.

(** ** What a refused request leaves behind *)

Lemma error_keeps_store `{Library} e request db x db' :
  handle e request db = (Error x, db') →
  (∃ status_code detail, x = HTTPException status_code detail)
  ∨ (e ≠ AddReminder ∧ e ≠ AddCalendarEntry) →
  db' = db.
Proof.
  intros Hout Hcase.
  destruct e; simpl in *; unfold_handlers;
    (destruct (find_tool_call _ _) as [tool_call|]; [|by simplify_eq]);
    step_attempt;
    try (destruct Hcase as [(status_code & detail & ->)|[? ?]]; [|done]);
    by repeat (case_match; simplify_eq; step_attempt; try done).
Qed.

(** An answer that is an [HTTPException] (400 or 404) leaves the three
    tables exactly as they were, on every route; and so does a status
    500 on the eight routes other than [add_reminder] and
    [add_calendar_entry], the two that build their answer after the
    commit. *)
Theorem refused_request_changes_nothing `{Library} e request db x db' :
  handle e request db = (Error x, db') →
  (∃ status_code detail, x = HTTPException status_code detail)
  ∨ e ∉ [AddReminder; AddCalendarEntry] →
  db' = db.
Proof.
  intros Hout Hcase. eapply error_keeps_store; [exact Hout|].
  destruct Hcase as [?|He]; [by left|right].
  split; intros ->; apply He; repeat constructor.
Qed.

Lemma refused_request_changes_nothing_witness :
  (@handle Reference.library AddReminder
     (request_of
        [ call "call_2" "addReminder" (ArgDict {[ "importance" := JStr "high" ]}) ])
     (@handle Reference.library CreateTodo
        (request_of
           [ call "call_1" "createTodo" (ArgDict {[ "title" := JStr "Buy milk" ]}) ])
        empty_store).2).2
  = (@handle Reference.library CreateTodo
       (request_of
          [ call "call_1" "createTodo" (ArgDict {[ "title" := JStr "Buy milk" ]}) ])
       empty_store).2.
Proof.
  apply (@refused_request_changes_nothing Reference.library AddReminder
           (request_of
              [ call "call_2" "addReminder"
                  (ArgDict {[ "importance" := JStr "high" ]}) ])
           _ (HTTPException 400 "Missing required fields")).
  - vm_compute. reflexivity.
  - left. by eexists _, _.
Defined.

(** ** One table per route *)

Lemma handle_others_untouched `{Library} e request db :
  others_untouched e db (handle e request db).2.
Proof.
  destruct e; simpl; unfold_handlers;
    (destruct (find_tool_call _ _) as [tool_call|]; [|done]);
    step_attempt;
    by repeat (case_match; simplify_eq; step_attempt; try done).
Qed.

(** The three entities are independent: a to-do route, whatever it is
    sent and whatever it answers, leaves the reminders and the calendar
    events as they were, and likewise for the routes of the two other
    entities. *)
Theorem route_writes_only_its_table `{Library} e request db db' :
  (handle e request db).2 = db' →
  (e ∈ [CreateTodo; GetTodos; CompleteTodo; DeleteTodo] →
   reminders db' = reminders db ∧ calendar_events db' = calendar_events db)
  ∧ (e ∈ [AddReminder; GetReminders; DeleteReminder] →
     todos db' = todos db ∧ calendar_events db' = calendar_events db)
  ∧ (e ∈ [AddCalendarEntry; GetCalendarEntries; DeleteCalendarEntry] →
     todos db' = todos db ∧ reminders db' = reminders db).
Proof.
  intros <-. pose proof (handle_others_untouched e request db) as Hothers.
  split_and!; intros He; destruct e; try done;
    by repeat (apply elem_of_cons in He as [He|He]; [discriminate He|]);
      apply elem_of_nil in He.
Qed.

Lemma route_writes_only_its_table_witness :
  reminders
    (@handle Reference.library DeleteTodo
       (request_of
          [ call "call_1" "deleteTodo" (ArgStr (Reference.dq "{'id': 1}")) ])
       (set_reminders {[ 1 := Reminder.mk (Some "Call mom") (Some "high") ]}
          (set_todos {[ 1 := Todo.mk (Some "Buy milk") (Some "") false ]}
             empty_store))).2
  = {[ 1 := Reminder.mk (Some "Call mom") (Some "high") ]}.
Proof.
  refine (proj1 (proj1 (@route_writes_only_its_table Reference.library
            DeleteTodo _ _ _ eq_refl) _)).
  repeat constructor.
Defined.

(** ** Counting rows along a run *)

Lemma request_row_delta `{Library} e request db c d :
  (c, d) ∈ [ (CreateTodo, DeleteTodo); (AddReminder, DeleteReminder);
             (AddCalendarEntry, DeleteCalendarEntry) ] →
  c = CreateTodo
  ∨ bool_decide (e = c)
    && match (handle e request db).1 with
       | Error OtherException => true
       | _ => false
       end = false →
  (rows c (handle e request db).2
   + (if bool_decide (e = d) && succeeded (handle e request db).1
      then 1 else 0)
   = rows c db
     + (if bool_decide (e = c) && succeeded (handle e request db).1
        then 1 else 0))%nat.
Proof.
  intros Hpair Hguard.
  pose proof (handle_others_untouched e request db) as Hothers.
  destruct (handle e request db) as [[body|x] db'] eqn:Hout; simpl in *.
  - pose proof (successful_request_row_count _ _ _ _ _ Hout) as Hcount.
    rewrite !andb_true_r.
    rewrite !elem_of_cons, elem_of_nil in Hpair.
    destruct Hpair as [[= -> ->]|[[= -> ->]|[[= -> ->]|[]]]];
      destruct e; simpl in *; destruct Hothers as [Ha Hb];
      rewrite ?Ha, ?Hb; lia.
  - rewrite !andb_false_r.
    assert (rows c db' = rows c db) as ->; [|lia].
    destruct x as [status_code detail|].
    { rewrite (error_keeps_store _ _ _ _ _ Hout); [done|].
      left. by eexists _, _. }
    assert (e ≠ AddReminder → e ≠ AddCalendarEntry → db' = db) as Hkeep.
    { intros ??. eapply error_keeps_store; [exact Hout|by right]. }
    rewrite !elem_of_cons, elem_of_nil in Hpair.
    destruct Hpair as [[= -> ->]|[[= -> ->]|[[= -> ->]|[]]]];
      destruct e; simpl in *;
      try (by destruct Hguard);
      try (destruct Hothers as [Ha Hb]; by rewrite ?Ha, ?Hb);
      by rewrite Hkeep by discriminate.
Qed.

Lemma serve_row_count `{Library} requests db c d :
  (c, d) ∈ [ (CreateTodo, DeleteTodo); (AddReminder, DeleteReminder);
             (AddCalendarEntry, DeleteCalendarEntry) ] →
  c = CreateTodo ∨ server_errors c requests (serve requests db).1 = 0%nat →
  (rows c (serve requests db).2
   + successes d requests (serve requests db).1
   = rows c db + successes c requests (serve requests db).1)%nat.
Proof.
  intros Hpair. revert db.
  induction requests as [|[e request] requests IH]; intros db Hguard; simpl.
  - lia.
  - simpl in Hguard.
    assert (c = CreateTodo
            ∨ bool_decide (e = c)
              && match (handle e request db).1 with
                 | Error OtherException => true
                 | _ => false
                 end = false) as Hhere.
    { destruct Hguard as [?|Hguard]; [by left|right].
      by destruct (bool_decide (e = c) && _). }
    assert (c = CreateTodo
            ∨ server_errors c requests
                (serve requests (handle e request db).2).1 = 0%nat) as Hrest.
    { destruct Hguard as [?|Hguard]; [by left|right]. lia. }
    pose proof (request_row_delta e request db c d Hpair Hhere).
    pose proof (IH (handle e request db).2 Hrest). lia.
Qed.

(** Along any sequence of requests, answered one after the other from
    any store, the to-dos end with as many rows as there were, plus one
    for every [createTodo] that succeeded, minus one for every
    [deleteTodo] that succeeded.  The same count holds of the reminders
    when no [addReminder] of the run was answered with status 500, and
    of the calendar events when no [addCalendarEntry] was. *)
Theorem rows_are_creates_minus_deletes `{Library} requests db :
  (size (todos (serve requests db).2)
   + successes DeleteTodo requests (serve requests db).1
   = size (todos db) + successes CreateTodo requests (serve requests db).1)%nat
  ∧ (server_errors AddReminder requests (serve requests db).1 = 0%nat →
     (size (reminders (serve requests db).2)
      + successes DeleteReminder requests (serve requests db).1
      = size (reminders db)
        + successes AddReminder requests (serve requests db).1)%nat)
  ∧ (server_errors AddCalendarEntry requests (serve requests db).1 = 0%nat →
     (size (calendar_events (serve requests db).2)
      + successes DeleteCalendarEntry requests (serve requests db).1
      = size (calendar_events db)
        + successes AddCalendarEntry requests (serve requests db).1)%nat).
Proof.
  split_and!.
  - apply (serve_row_count requests db CreateTodo DeleteTodo);
      [repeat constructor|by left].
  - intros Hnone.
    apply (serve_row_count requests db AddReminder DeleteReminder);
      [repeat constructor|by right].
  - intros Hnone.
    apply (serve_row_count requests db AddCalendarEntry DeleteCalendarEntry);
      [repeat constructor|by right].
Qed.

Lemma rows_are_creates_minus_deletes_witness :
  (size (reminders
     (@serve Reference.library
        [ (AddReminder,
           request_of
             [ call "c1" "addReminder"
                 (ArgDict (<["importance" := JStr "high"]>
                             {[ "reminder_text" := JStr "Call mom" ]})) ]);
          (AddReminder,
           request_of
             [ call "c2" "addReminder"
                 (ArgDict {[ "importance" := JStr "low" ]}) ]);
          (DeleteReminder,
           request_of
             [ call "c3" "deleteReminder" (ArgDict {[ "id" := JNum 1 ]}) ]) ]
        empty_store).2)
   + 1 = 0 + 1)%nat.
Proof.
  pose proof (proj1 (proj2 (@rows_are_creates_minus_deletes Reference.library
    [ (AddReminder,
       request_of
         [ call "c1" "addReminder"
             (ArgDict (<["importance" := JStr "high"]>
                         {[ "reminder_text" := JStr "Call mom" ]})) ]);
      (AddReminder,
       request_of
         [ call "c2" "addReminder"
             (ArgDict {[ "importance" := JStr "low" ]}) ]);
      (DeleteReminder,
       request_of
         [ call "c3" "deleteReminder" (ArgDict {[ "id" := JNum 1 ]}) ]) ]
    empty_store))) as Hcount.
  specialize (Hcount ltac:(vm_compute; reflexivity)).
  vm_compute in Hcount. vm_compute. exact Hcount.
Defined.

Example two_creates_one_delete :
  size (todos
    (@serve Reference.library
       [ (CreateTodo,
          request_of [ call "c1" "createTodo" (ArgDict {[ "title" := JStr "a" ]}) ]);
         (CreateTodo,
          request_of [ call "c2" "createTodo" (ArgDict {[ "title" := JStr "b" ]}) ]);
         (DeleteTodo,
          request_of [ call "c3" "deleteTodo" (ArgDict {[ "id" := JNum 0 ]}) ]);
         (DeleteTodo,
          request_of [ call "c4" "deleteTodo" (ArgDict {[ "id" := JNum 1 ]}) ]) ]
       empty_store).2)
  = 1%nat.
Proof. vm_compute. reflexivity. Qed.

(** ** What a listing holds *)

Lemma for_each_elem_of {A B} (f : A → attempt B) xs ys y :
  for_each f xs = inr ys → y ∈ ys ↔ ∃ x, x ∈ xs ∧ f x = inr y.
Proof.
  revert ys. induction xs as [|x xs IH]; intros ys; simpl.
  - intros [= <-]. split; [by intros ?%elem_of_nil|].
    by intros (? & ?%elem_of_nil & _).
  - destruct (f x) as [?|y0] eqn:Hx; step_attempt; [done|].
    destruct (for_each f xs) as [?|ys0]; step_attempt; [done|].
    intros [= <-]. rewrite elem_of_cons, (IH ys0 eq_refl). split.
    + intros [->|(x' & Hx' & Hy)].
      * exists x. split; [left|done].
      * exists x'. split; [by right|done].
    + intros (x' & [->|Hx']%elem_of_cons & Hy).
      * left. congruence.
      * right. by exists x'.
Qed.

Lemma for_each_raises {A B} (f : A → attempt B) xs x :
  (∀ x' e, f x' = inl e → e = OtherException) →
  x ∈ xs → f x = inl OtherException →
  for_each f xs = inl OtherException.
Proof.
  intros Hf Hx Hfx.
  induction xs as [|x' xs IH]; [by apply elem_of_nil in Hx|].
  simpl. apply elem_of_cons in Hx as [<-|Hx].
  - by rewrite Hfx.
  - destruct (f x') as [e|y] eqn:Hx'; step_attempt.
    + by rewrite (Hf _ _ Hx').
    + by rewrite (IH Hx).
Qed.

Lemma get_todos_answer request tool_call db :
  map_Forall (λ _ todo, is_Some (Todo.title todo)) (todos db) →
  find_tool_call "getTodos" (calls request) = Some tool_call →
  ∃ l, for_each TodoResponse_from_orm (map_to_list (todos db)) = inr l
       ∧ length l = size (todos db)
       ∧ get_todos request db = (envelope tool_call (PTodos l), db).
Proof.
  intros Htitles Hfirst.
  destruct (for_each_total TodoResponse_from_orm (map_to_list (todos db)))
    as (l & Hl & Hlen).
  { apply map_Forall_to_list in Htitles.
    eapply Forall_impl; [exact Htitles|].
    intros [k todo] [title Htitle]; simpl in *.
    unfold TodoResponse_from_orm; simpl. rewrite Htitle. by eexists. }
  exists l. rewrite Hlen, length_map_to_list. split_and!; [done..|].
  unfold get_todos. rewrite Hfirst. step_attempt. by rewrite Hl.
Qed.

Lemma todo_item_iff (table : gmap Z Todo.t) l k title description completed :
  for_each TodoResponse_from_orm (map_to_list table) = inr l →
  TodoResponse.mk k title description completed ∈ l
  ↔ table !! k = Some (Todo.mk (Some title) description completed).
Proof.
  intros Heach. rewrite (for_each_elem_of _ _ _ _ Heach). split.
  - intros ([k' [t d c]] & Hrow%elem_of_map_to_list & Hitem).
    unfold TodoResponse_from_orm in Hitem. step_attempt.
    destruct t; step_attempt; by simplify_eq.
  - intros Hrow. exists (k, Todo.mk (Some title) description completed).
    split; [by apply elem_of_map_to_list|done].
Qed.

Lemma get_reminders_answer request tool_call db :
  map_Forall (λ _, reminder_readable) (reminders db) →
  find_tool_call "getReminders" (calls request) = Some tool_call →
  ∃ l, for_each ReminderResponse_from_orm (map_to_list (reminders db)) = inr l
       ∧ length l = size (reminders db)
       ∧ get_reminders request db = (envelope tool_call (PReminders l), db).
Proof.
  intros Hrows Hfirst.
  destruct (for_each_total ReminderResponse_from_orm
              (map_to_list (reminders db))) as (l & Hl & Hlen).
  { apply map_Forall_to_list in Hrows.
    eapply Forall_impl; [exact Hrows|].
    intros [k r] [[text Htext] [imp Himp]]; simpl in *.
    unfold ReminderResponse_from_orm; simpl. rewrite Htext, Himp.
    by eexists. }
  exists l. rewrite Hlen, length_map_to_list. split_and!; [done..|].
  unfold get_reminders. rewrite Hfirst. step_attempt. by rewrite Hl.
Qed.

Lemma reminder_item_iff (table : gmap Z Reminder.t) l k text imp :
  for_each ReminderResponse_from_orm (map_to_list table) = inr l →
  ReminderResponse.mk k text imp ∈ l
  ↔ table !! k = Some (Reminder.mk (Some text) (Some imp)).
Proof.
  intros Heach. rewrite (for_each_elem_of _ _ _ _ Heach). split.
  - intros ([k' [t i]] & Hrow%elem_of_map_to_list & Hitem).
    unfold ReminderResponse_from_orm in Hitem. step_attempt.
    destruct t, i; step_attempt; by simplify_eq.
  - intros Hrow. exists (k, Reminder.mk (Some text) (Some imp)).
    split; [by apply elem_of_map_to_list|done].
Qed.

Lemma get_calendar_entries_answer request tool_call db :
  map_Forall (λ _, event_readable) (calendar_events db) →
  find_tool_call "getCalendarEntries" (calls request) = Some tool_call →
  ∃ l, for_each CalendarEventResponse_from_orm
         (map_to_list (calendar_events db)) = inr l
       ∧ length l = size (calendar_events db)
       ∧ get_calendar_entries request db
         = (envelope tool_call (PCalendarEvents l), db).
Proof.
  intros Hrows Hfirst.
  destruct (for_each_total CalendarEventResponse_from_orm
              (map_to_list (calendar_events db))) as (l & Hl & Hlen).
  { apply map_Forall_to_list in Hrows.
    eapply Forall_impl; [exact Hrows|].
    intros [k ev] ([title Htitle] & [start Hstart] & [finish Hfinish]);
      simpl in *.
    unfold CalendarEventResponse_from_orm; simpl.
    rewrite Htitle, Hstart, Hfinish. by eexists. }
  exists l. rewrite Hlen, length_map_to_list. split_and!; [done..|].
  unfold get_calendar_entries. rewrite Hfirst. step_attempt. by rewrite Hl.
Qed.

Lemma event_item_iff (table : gmap Z CalendarEvent.t) l
    k title description start finish :
  for_each CalendarEventResponse_from_orm (map_to_list table) = inr l →
  CalendarEventResponse.mk k title description start finish ∈ l
  ↔ table !! k
    = Some (CalendarEvent.mk (Some title) description (Some start) (Some finish)).
Proof.
  intros Heach. rewrite (for_each_elem_of _ _ _ _ Heach). split.
  - intros ([k' [t d f g]] & Hrow%elem_of_map_to_list & Hitem).
    unfold CalendarEventResponse_from_orm in Hitem. step_attempt.
    destruct t, f, g; step_attempt; by simplify_eq.
  - intros Hrow.
    exists (k, CalendarEvent.mk (Some title) description (Some start)
                 (Some finish)).
    split; [by apply elem_of_map_to_list|done].
Qed.

(** When every stored to-do has a title, [getTodos] answers with one
    item per row and nothing else: a to-do of id [k] with given title,
    description and completed flag is in the list exactly when the table
    holds that row under [k].  No row is filtered out, none is made up. *)
Theorem get_todos_lists_the_table `{Library} request tool_call db :
  map_Forall (λ _ todo, is_Some (Todo.title todo)) (todos db) →
  first_matching "getTodos" request tool_call →
  ∃ l,
    get_todos request db = (envelope tool_call (PTodos l), db)
    ∧ length l = size (todos db)
    ∧ ∀ k title description completed,
        TodoResponse.mk k title description completed ∈ l
        ↔ todos db !! k = Some (Todo.mk (Some title) description completed).
Proof.
  intros Htitles Hfirst%find_tool_call_first.
  destruct (get_todos_answer _ _ _ Htitles Hfirst) as (l & Heach & Hlen & Hl).
  exists l. split_and!; [done..|].
  intros. by apply todo_item_iff.
Qed.

Lemma get_todos_lists_the_table_witness :
  ∃ l,
    get_todos
      (request_of [ call "call_1" "getTodos" (ArgDict ∅) ])
      (set_todos (<[ 2 := Todo.mk (Some "Walk dog") None true ]>
                    {[ 1 := Todo.mk (Some "Buy milk") (Some "") false ]})
         empty_store)
    = (envelope (call "call_1" "getTodos" (ArgDict ∅)) (PTodos l),
       set_todos (<[ 2 := Todo.mk (Some "Walk dog") None true ]>
                    {[ 1 := Todo.mk (Some "Buy milk") (Some "") false ]})
         empty_store)
    ∧ length l = 2%nat
    ∧ ∀ k title description completed,
        TodoResponse.mk k title description completed ∈ l
        ↔ (<[ 2 := Todo.mk (Some "Walk dog") None true ]>
             {[ 1 := Todo.mk (Some "Buy milk") (Some "") false ]} : gmap Z Todo.t)
          !! k = Some (Todo.mk (Some title) description completed).
Proof.
  apply (@get_todos_lists_the_table Reference.library).
  - apply map_Forall_insert_2; [by eexists|].
    apply map_Forall_singleton. by eexists.
  - exists [], []. split_and!; [reflexivity|constructor|reflexivity].
Defined.

(** [getTodos] fails as soon as one stored to-do has no title: the
    response model refuses the row, and the answer is status 500 for the
    whole listing, not a list without that row. *)
Theorem get_todos_fails_on_a_null_title `{Library} request tool_call k todo db :
  first_matching "getTodos" request tool_call →
  todos db !! k = Some todo →
  Todo.title todo = None →
  get_todos request db = (Error OtherException, db).
Proof.
  intros Hfirst%find_tool_call_first Hrow Htitle.
  unfold get_todos. rewrite Hfirst. step_attempt.
  rewrite (for_each_raises TodoResponse_from_orm _ (k, todo)); [done| | |].
  - intros [k' [t d c]] e. unfold TodoResponse_from_orm. step_attempt.
    destruct t; step_attempt; [done|]. by intros [= <-].
  - by apply elem_of_map_to_list.
  - unfold TodoResponse_from_orm. simpl. by rewrite Htitle.
Qed.

Lemma get_todos_fails_on_a_null_title_witness :
  get_todos
    (request_of [ call "call_1" "getTodos" (ArgDict ∅) ])
    (set_todos (<[ 2 := Todo.mk None None false ]>
                  {[ 1 := Todo.mk (Some "Buy milk") (Some "") false ]})
       empty_store)
  = (Error OtherException,
     set_todos (<[ 2 := Todo.mk None None false ]>
                  {[ 1 := Todo.mk (Some "Buy milk") (Some "") false ]})
       empty_store).
Proof.
  apply (@get_todos_fails_on_a_null_title Reference.library _
           (call "call_1" "getTodos" (ArgDict ∅)) 2 (Todo.mk None None false)).
  - exists [], []. split_and!; [reflexivity|constructor|reflexivity].
  - vm_compute. reflexivity.
  - reflexivity.
Defined.

(** When no stored reminder has a NULL text or importance,
    [getReminders] answers with one item per row and nothing else: a
    reminder of id [k] with given text and importance is in the list
    exactly when the table holds that row under [k]. *)
Theorem get_reminders_lists_the_table `{Library} request tool_call db :
  map_Forall (λ _ r, is_Some (Reminder.reminder_text r)
                     ∧ is_Some (Reminder.importance r)) (reminders db) →
  first_matching "getReminders" request tool_call →
  ∃ l,
    get_reminders request db = (envelope tool_call (PReminders l), db)
    ∧ length l = size (reminders db)
    ∧ ∀ k text imp,
        ReminderResponse.mk k text imp ∈ l
        ↔ reminders db !! k = Some (Reminder.mk (Some text) (Some imp)).
Proof.
  intros Hrows Hfirst%find_tool_call_first.
  destruct (get_reminders_answer _ _ _ Hrows Hfirst)
    as (l & Heach & Hlen & Hl).
  exists l. split_and!; [done..|].
  intros. by apply reminder_item_iff.
Qed.

Lemma get_reminders_lists_the_table_witness :
  ∃ l,
    get_reminders
      (request_of [ call "call_2" "getReminders" (ArgDict ∅) ])
      (set_reminders {[ 1 := Reminder.mk (Some "Call mom") (Some "high") ]}
         empty_store)
    = (envelope (call "call_2" "getReminders" (ArgDict ∅)) (PReminders l),
       (set_reminders {[ 1 := Reminder.mk (Some "Call mom") (Some "high") ]}
         empty_store))
    ∧ length l = 1%nat
    ∧ ReminderResponse.mk 1 "Call mom" "high" ∈ l.
Proof.
  destruct (@get_reminders_lists_the_table Reference.library
              (request_of [ call "call_2" "getReminders" (ArgDict ∅) ])
              (call "call_2" "getReminders" (ArgDict ∅))
              (set_reminders {[ 1 := Reminder.mk (Some "Call mom") (Some "high") ]}
         empty_store)) as (l & Hl & Hlen & Hitems).
  - apply map_Forall_singleton. split; by eexists.
  - exists [], []. split_and!; [reflexivity|constructor|reflexivity].
  - exists l. split_and!; [exact Hl|exact Hlen|].
    apply Hitems. vm_compute. reflexivity.
Defined.

(** When no stored calendar event has a NULL title or timestamp,
    [getCalendarEntries] answers with one item per row and nothing
    else: an event of id [k] with given title, description and
    timestamps is in the list exactly when the table holds that row
    under [k]. *)
Theorem get_calendar_entries_lists_the_table `{Library} request tool_call db :
  map_Forall (λ _ ev, is_Some (CalendarEvent.title ev)
                      ∧ is_Some (CalendarEvent.event_from ev)
                      ∧ is_Some (CalendarEvent.event_to ev))
    (calendar_events db) →
  first_matching "getCalendarEntries" request tool_call →
  ∃ l,
    get_calendar_entries request db
    = (envelope tool_call (PCalendarEvents l), db)
    ∧ length l = size (calendar_events db)
    ∧ ∀ k title description start finish,
        CalendarEventResponse.mk k title description start finish ∈ l
        ↔ calendar_events db !! k
          = Some (CalendarEvent.mk (Some title) description
                    (Some start) (Some finish)).
Proof.
  intros Hrows Hfirst%find_tool_call_first.
  destruct (get_calendar_entries_answer _ _ _ Hrows Hfirst)
    as (l & Heach & Hlen & Hl).
  exists l. split_and!; [done..|].
  intros. by apply event_item_iff.
Qed.

Lemma get_calendar_entries_lists_the_table_witness :
  ∃ l,
    get_calendar_entries
      (request_of [ call "call_1" "getCalendarEntries" (ArgDict ∅) ])
      (set_calendar_events
         {[ 3 := CalendarEvent.mk (Some "Standup") None
                   (Some (mk_datetime 2024 1 1 10 0 0 0))
                   (Some (mk_datetime 2024 1 1 11 0 0 0)) ]}
         empty_store)
    = (envelope (call "call_1" "getCalendarEntries" (ArgDict ∅))
         (PCalendarEvents l),
       set_calendar_events
         {[ 3 := CalendarEvent.mk (Some "Standup") None
                   (Some (mk_datetime 2024 1 1 10 0 0 0))
                   (Some (mk_datetime 2024 1 1 11 0 0 0)) ]}
         empty_store)
    ∧ length l = 1%nat
    ∧ CalendarEventResponse.mk 3 "Standup" None
        (mk_datetime 2024 1 1 10 0 0 0) (mk_datetime 2024 1 1 11 0 0 0) ∈ l.
Proof.
  destruct (@get_calendar_entries_lists_the_table Reference.library
              (request_of [ call "call_1" "getCalendarEntries" (ArgDict ∅) ])
              (call "call_1" "getCalendarEntries" (ArgDict ∅))
              (set_calendar_events
                 {[ 3 := CalendarEvent.mk (Some "Standup") None
                           (Some (mk_datetime 2024 1 1 10 0 0 0))
                           (Some (mk_datetime 2024 1 1 11 0 0 0)) ]}
                 empty_store)) as (l & Hl & Hlen & Hitems).
  - apply map_Forall_singleton. split_and!; by eexists.
  - exists [], []. split_and!; [reflexivity|constructor|reflexivity].
  - exists l. split_and!; [exact Hl|exact Hlen|].
    apply Hitems. vm_compute. reflexivity.
Defined.

(** ** Creating, then reading *)

Lemma truthy_text s : s ≠ "" → truthy (JStr s) = true.
Proof. by destruct s. Qed.

Lemma bind_text_encodable `{Library} s :
  encodable s = true → bind_text (JStr s) = inr (Some s).
Proof. intros Hs. unfold bind_text. by rewrite Hs. Qed.

Lemma add_reminder_answer `{Library} request tool_call a text imp db :
  find_tool_call "addReminder" (calls request) = Some tool_call →
  load_arguments (arguments_of tool_call) = inr a →
  a !! "reminder_text" = Some (JStr text) →
  a !! "importance" = Some (JStr imp) →
  text ≠ "" → imp ≠ "" →
  encodable text = true → encodable imp = true →
  add_reminder request db
  = (envelope tool_call
       (PReminder (ReminderResponse.mk (next_id (reminders db)) text imp)),
     set_reminders
       (<[next_id (reminders db) := Reminder.mk (Some text) (Some imp)]>
          (reminders db))
       db).
Proof.
  intros Hfirst Hargs Htext Himp Htext_ne Himp_ne Htext_ok Himp_ok.
  unfold add_reminder. rewrite Hfirst, Hargs. step_attempt.
  unfold get_or_none, get. rewrite Htext, Himp.
  change (default JNull (Some (JStr text))) with (JStr text).
  change (default JNull (Some (JStr imp))) with (JStr imp).
  rewrite !truthy_text, !bind_text_encodable by done.
  reflexivity.
Qed.

(** [addReminder] with a text and an importance that are non-empty
    strings the driver can encode stores the reminder under a key that
    was not in use, leaves the rows already there as they were, and
    answers with the stored record: the new key, the text and the
    importance as they were sent. *)
Theorem add_reminder_stores_and_returns `{Library}
    request tool_call a text imp db :
  first_matching "addReminder" request tool_call →
  carries tool_call a →
  a !! "reminder_text" = Some (JStr text) →
  a !! "importance" = Some (JStr imp) →
  text ≠ "" → imp ≠ "" →
  encodable text = true → encodable imp = true →
  ∃ k db',
    add_reminder request db
    = (envelope tool_call (PReminder (ReminderResponse.mk k text imp)), db')
    ∧ reminders db !! k = None
    ∧ reminders db' !! k = Some (Reminder.mk (Some text) (Some imp))
    ∧ ∀ k', k' ≠ k → reminders db' !! k' = reminders db !! k'.
Proof.
  intros Hfirst%find_tool_call_first Hargs%load_arguments_carries
    Htext Himp Htext_ne Himp_ne Htext_ok Himp_ok.
  eexists _, _. split_and!.
  - by eapply add_reminder_answer.
  - apply next_id_fresh.
  - simpl. apply lookup_insert_eq.
  - intros k' Hk'. simpl. by apply lookup_insert_ne.
Qed.

Lemma add_reminder_stores_and_returns_witness :
  ∃ k db',
    @add_reminder Reference.library
      (request_of
         [ call "call_1" "addReminder"
             (ArgStr (Reference.dq
                "{'reminder_text': 'Call mom', 'importance': 'high'}")) ])
      (set_reminders {[ 4 := Reminder.mk (Some "Pay rent") (Some "low") ]}
         empty_store)
    = (envelope
         (call "call_1" "addReminder"
            (ArgStr (Reference.dq
               "{'reminder_text': 'Call mom', 'importance': 'high'}")))
         (PReminder (ReminderResponse.mk k "Call mom" "high")), db')
    ∧ reminders
        (set_reminders {[ 4 := Reminder.mk (Some "Pay rent") (Some "low") ]}
           empty_store) !! k = None
    ∧ reminders db' !! k = Some (Reminder.mk (Some "Call mom") (Some "high"))
    ∧ ∀ k', k' ≠ k →
        reminders db' !! k'
        = reminders
            (set_reminders {[ 4 := Reminder.mk (Some "Pay rent") (Some "low") ]}
               empty_store) !! k'.
Proof.
  apply (@add_reminder_stores_and_returns Reference.library _ _
           (<["importance" := JStr "high"]>
              {[ "reminder_text" := JStr "Call mom" ]})).
  - exists [], []. split_and!; [reflexivity|constructor|reflexivity].
  - vm_compute. reflexivity.
  - vm_compute. reflexivity.
  - vm_compute. reflexivity.
  - discriminate.
  - discriminate.
  - reflexivity.
  - reflexivity.
Defined.

(** A reminder that [addReminder] has stored is read back by the next
    [getReminders], provided the reminders already stored have no NULL
    text or importance: the listing holds the record that [addReminder]
    answered with, and one item more than the table had rows. *)
Theorem added_reminder_is_listed `{Library}
    request tool_call a text imp request' tool_call' db :
  map_Forall (λ _ r, is_Some (Reminder.reminder_text r)
                     ∧ is_Some (Reminder.importance r)) (reminders db) →
  first_matching "addReminder" request tool_call →
  carries tool_call a →
  a !! "reminder_text" = Some (JStr text) →
  a !! "importance" = Some (JStr imp) →
  text ≠ "" → imp ≠ "" →
  encodable text = true → encodable imp = true →
  first_matching "getReminders" request' tool_call' →
  ∃ created l,
    (add_reminder request db).1 = envelope tool_call (PReminder created)
    ∧ get_reminders request' (add_reminder request db).2
      = (envelope tool_call' (PReminders l), (add_reminder request db).2)
    ∧ created ∈ l
    ∧ length l = S (size (reminders db)).
Proof.
  intros Hrows Hfirst%find_tool_call_first Hargs%load_arguments_carries
    Htext Himp Htext_ne Himp_ne Htext_ok Himp_ok
    Hfirst'%find_tool_call_first.
  rewrite (add_reminder_answer _ _ _ _ _ _ Hfirst Hargs Htext Himp
             Htext_ne Himp_ne Htext_ok Himp_ok).
  simpl.
  destruct (get_reminders_answer request' tool_call'
              (set_reminders
                 (<[next_id (reminders db)
                    := Reminder.mk (Some text) (Some imp)]> (reminders db))
                 db))
    as (l & Heach & Hlen & Hl); [|done|].
  { simpl. apply map_Forall_insert_2; [split; by eexists|done]. }
  eexists _, l. split_and!; [done|done| |].
  - apply (reminder_item_iff _ _ _ _ _ Heach), lookup_insert_eq.
  - rewrite Hlen. simpl. apply map_size_insert_None, next_id_fresh.
Qed.

Lemma added_reminder_is_listed_witness :
  ∃ created l,
    (@add_reminder Reference.library
       (request_of
          [ call "call_1" "addReminder"
              (ArgDict (<["importance" := JStr "high"]>
                          {[ "reminder_text" := JStr "Call mom" ]})) ])
       empty_store).1
    = envelope
        (call "call_1" "addReminder"
           (ArgDict (<["importance" := JStr "high"]>
                       {[ "reminder_text" := JStr "Call mom" ]})))
        (PReminder created)
    ∧ get_reminders
        (request_of [ call "call_2" "getReminders" (ArgDict ∅) ])
        (@add_reminder Reference.library
           (request_of
              [ call "call_1" "addReminder"
                  (ArgDict (<["importance" := JStr "high"]>
                              {[ "reminder_text" := JStr "Call mom" ]})) ])
           empty_store).2
      = (envelope (call "call_2" "getReminders" (ArgDict ∅)) (PReminders l),
         (@add_reminder Reference.library
            (request_of
               [ call "call_1" "addReminder"
                   (ArgDict (<["importance" := JStr "high"]>
                               {[ "reminder_text" := JStr "Call mom" ]})) ])
            empty_store).2)
    ∧ created ∈ l
    ∧ length l = S (size (reminders empty_store)).
Proof.
  apply (@added_reminder_is_listed Reference.library _ _
           (<["importance" := JStr "high"]>
              {[ "reminder_text" := JStr "Call mom" ]})
           "Call mom" "high").
  - apply map_Forall_empty.
  - exists [], []. split_and!; [reflexivity|constructor|reflexivity].
  - reflexivity.
  - vm_compute. reflexivity.
  - vm_compute. reflexivity.
  - discriminate.
  - discriminate.
  - reflexivity.
  - reflexivity.
  - exists [], []. split_and!; [reflexivity|constructor|reflexivity].
Defined.

(** [addCalendarEntry] with a title that is a non-empty string the
    driver can encode, and two timestamps that parse, stores the event
    under a key that was not in use, with the parsed timestamps, and
    answers with the stored record.  The two timestamps are not
    compared: an event may end before it starts. *)
Theorem add_calendar_entry_stores_and_returns `{Library}
    request tool_call a title event_from_str event_to_str
    event_from event_to description db :
  first_matching "addCalendarEntry" request tool_call →
  carries tool_call a →
  a !! "title" = Some (JStr title) →
  a !! "event_from" = Some (JStr event_from_str) →
  a !! "event_to" = Some (JStr event_to_str) →
  title ≠ "" → event_from_str ≠ "" → event_to_str ≠ "" →
  encodable title = true →
  fromisoformat event_from_str = Some event_from →
  fromisoformat event_to_str = Some event_to →
  bind_text (get a "description" (JStr "")) = inr description →
  ∃ k db',
    add_calendar_entry request db
    = (envelope tool_call
         (PCalendarEvent
            (CalendarEventResponse.mk k title description event_from event_to)),
       db')
    ∧ calendar_events db !! k = None
    ∧ calendar_events db' !! k
      = Some (CalendarEvent.mk (Some title) description
                (Some event_from) (Some event_to))
    ∧ ∀ k', k' ≠ k → calendar_events db' !! k' = calendar_events db !! k'.
Proof.
  intros Hfirst%find_tool_call_first Hargs%load_arguments_carries
    Htitle Hfrom Hto Htitle_ne Hfrom_ne Hto_ne Htitle_ok
    Hstart Hfinish Hdescription.
  exists (next_id (calendar_events db)),
    (set_calendar_events
       (<[next_id (calendar_events db)
          := CalendarEvent.mk (Some title) description
               (Some event_from) (Some event_to)]> (calendar_events db)) db).
  split_and!.
  - unfold add_calendar_entry. rewrite Hfirst, Hargs. step_attempt.
    rewrite Hdescription. unfold get. rewrite Htitle, Hfrom, Hto.
    change (default (JStr "") (Some (JStr title))) with (JStr title).
    change (default (JStr "") (Some (JStr event_from_str)))
      with (JStr event_from_str).
    change (default (JStr "") (Some (JStr event_to_str)))
      with (JStr event_to_str).
    rewrite !truthy_text, bind_text_encodable by done.
    unfold parse_iso. by rewrite Hstart, Hfinish.
  - apply next_id_fresh.
  - simpl. apply lookup_insert_eq.
  - intros k' Hk'. simpl. by apply lookup_insert_ne.
Qed.

Lemma add_calendar_entry_stores_and_returns_witness :
  ∃ k db',
    @add_calendar_entry Reference.library
      (request_of
         [ call "call_1" "addCalendarEntry"
             (ArgStr (Reference.dq
                "{'title': 'Standup', 'event_from': '2024-01-02T10:00:00', 'event_to': '2024-01-01T09:00:00'}")) ])
      empty_store
    = (envelope
         (call "call_1" "addCalendarEntry"
            (ArgStr (Reference.dq
               "{'title': 'Standup', 'event_from': '2024-01-02T10:00:00', 'event_to': '2024-01-01T09:00:00'}")))
         (PCalendarEvent
            (CalendarEventResponse.mk k "Standup" (Some "")
               (mk_datetime 2024 1 2 10 0 0 0) (mk_datetime 2024 1 1 9 0 0 0))),
       db')
    ∧ calendar_events empty_store !! k = None
    ∧ calendar_events db' !! k
      = Some (CalendarEvent.mk (Some "Standup") (Some "")
                (Some (mk_datetime 2024 1 2 10 0 0 0))
                (Some (mk_datetime 2024 1 1 9 0 0 0)))
    ∧ ∀ k', k' ≠ k →
        calendar_events db' !! k' = calendar_events empty_store !! k'.
Proof.
  apply (@add_calendar_entry_stores_and_returns Reference.library _ _
           (<["event_to" := JStr "2024-01-01T09:00:00"]>
           (<["event_from" := JStr "2024-01-02T10:00:00"]>
              {[ "title" := JStr "Standup" ]}))
           "Standup" "2024-01-02T10:00:00" "2024-01-01T09:00:00").
  - exists [], []. split_and!; [reflexivity|constructor|reflexivity].
  - vm_compute. reflexivity.
  - vm_compute. reflexivity.
  - vm_compute. reflexivity.
  - vm_compute. reflexivity.
  - discriminate.
  - discriminate.
  - discriminate.
  - reflexivity.
  - vm_compute. reflexivity.
  - vm_compute. reflexivity.
  - vm_compute. reflexivity.
Defined.

(** In [addCalendarEntry] only [ValueError] is caught around the two
    calls of [fromisoformat].  With a truthy title and two truthy
    timestamps, a timestamp that is not a string (a number, say) raises
    [TypeError]: when it is ['event_from'], or when ['event_from'] parses
    and it is ['event_to'], the answer is status 500, not 400, and
    nothing is stored. *)
Theorem non_string_timestamp_is_a_server_error `{Library}
    request tool_call a title vfrom vto db :
  first_matching "addCalendarEntry" request tool_call →
  carries tool_call a →
  a !! "title" = Some title →
  a !! "event_from" = Some vfrom →
  a !! "event_to" = Some vto →
  truthy title = true → truthy vfrom = true → truthy vto = true →
  ((∀ s, vfrom ≠ JStr s)
   ∨ ((∃ s d, vfrom = JStr s ∧ fromisoformat s = Some d)
      ∧ ∀ s, vto ≠ JStr s)) →
  add_calendar_entry request db = (Error OtherException, db).
Proof.
  intros Hfirst%find_tool_call_first Hargs%load_arguments_carries
    Htitle Hfrom Hto Htitle_t Hfrom_t Hto_t Hcase.
  unfold add_calendar_entry. rewrite Hfirst, Hargs. step_attempt.
  unfold get. rewrite Htitle, Hfrom, Hto. simpl.
  rewrite Htitle_t, Hfrom_t, Hto_t. simpl.
  destruct Hcase as [Hns|[(s & d & -> & Hd) Hns]].
  - destruct vfrom; try done. by destruct (Hns s).
  - simpl. rewrite Hd. simpl. destruct vto; try done. by destruct (Hns s0).
Qed.

Lemma non_string_timestamp_is_a_server_error_witness :
  @add_calendar_entry Reference.library
    (request_of
       [ call "call_1" "addCalendarEntry"
           (ArgStr (Reference.dq
              "{'title': 'Standup', 'event_from': 1704103200, 'event_to': 'not-a-date'}")) ])
    empty_store
  = (Error OtherException, empty_store).
Proof.
  apply (@non_string_timestamp_is_a_server_error Reference.library _
           (call "call_1" "addCalendarEntry"
              (ArgStr (Reference.dq
                 "{'title': 'Standup', 'event_from': 1704103200, 'event_to': 'not-a-date'}")))
           (<["event_to" := JStr "not-a-date"]>
           (<["event_from" := JNum 1704103200]>
              {[ "title" := JStr "Standup" ]}))
           (JStr "Standup") (JNum 1704103200) (JStr "not-a-date")).
  - exists [], []. split_and!; [reflexivity|constructor|reflexivity].
  - vm_compute. reflexivity.
  - vm_compute. reflexivity.
  - vm_compute. reflexivity.
  - vm_compute. reflexivity.
  - reflexivity.
  - reflexivity.
  - reflexivity.
  - left. discriminate.
Defined.

(** A to-do that [createTodo] has stored is read back by the next
    [getTodos], provided the to-dos already stored have titles and the
    title sent is a string the driver can encode: the listing holds it
    under its new id with the title as it was sent (the empty string
    included), not completed, and one item more than the table had
    rows. *)
Theorem created_todo_is_listed `{Library}
    request tool_call a title description request' tool_call' db :
  map_Forall (λ _ todo, is_Some (Todo.title todo)) (todos db) →
  first_matching "createTodo" request tool_call →
  carries tool_call a →
  a !! "title" = Some (JStr title) →
  encodable title = true →
  bind_text (get a "description" (JStr "")) = inr description →
  first_matching "getTodos" request' tool_call' →
  ∃ k l,
    (create_todo request db).1 = envelope tool_call (PStr "success")
    ∧ todos db !! k = None
    ∧ get_todos request' (create_todo request db).2
      = (envelope tool_call' (PTodos l), (create_todo request db).2)
    ∧ TodoResponse.mk k title description false ∈ l
    ∧ length l = S (size (todos db)).
Proof.
  intros Htitles Hfirst%find_tool_call_first Hargs%load_arguments_carries
    Htitle Htitle_ok Hdescription Hfirst'%find_tool_call_first.
  assert (create_todo request db
          = (envelope tool_call (PStr "success"),
             set_todos (<[next_id (todos db)
                          := Todo.mk (Some title) description false]>
                          (todos db)) db)) as Hcreate.
  { unfold create_todo. rewrite Hfirst, Hargs. step_attempt.
    rewrite Hdescription. unfold get. rewrite Htitle.
    change (default (JStr "") (Some (JStr title))) with (JStr title).
    by rewrite bind_text_encodable. }
  rewrite Hcreate. simpl.
  destruct (get_todos_answer request' tool_call'
              (set_todos (<[next_id (todos db)
                           := Todo.mk (Some title) description false]>
                           (todos db)) db))
    as (l & Heach & Hlen & Hl); [|done|].
  { simpl. apply map_Forall_insert_2; [by eexists|done]. }
  exists (next_id (todos db)), l. split_and!; [done| |done| |].
  - apply next_id_fresh.
  - apply (todo_item_iff _ _ _ _ _ _ Heach), lookup_insert_eq.
  - rewrite Hlen. simpl. apply map_size_insert_None, next_id_fresh.
Qed.

Lemma created_todo_is_listed_witness :
  ∃ k l,
    (@create_todo Reference.library
       (request_of
          [ call "call_1" "createTodo" (ArgDict {[ "title" := JStr "Buy milk" ]}) ])
       empty_store).1
    = envelope
        (call "call_1" "createTodo" (ArgDict {[ "title" := JStr "Buy milk" ]}))
        (PStr "success")
    ∧ todos empty_store !! k = None
    ∧ get_todos
        (request_of [ call "call_2" "getTodos" (ArgDict ∅) ])
        (@create_todo Reference.library
           (request_of
              [ call "call_1" "createTodo"
                  (ArgDict {[ "title" := JStr "Buy milk" ]}) ])
           empty_store).2
      = (envelope (call "call_2" "getTodos" (ArgDict ∅)) (PTodos l),
         (@create_todo Reference.library
            (request_of
               [ call "call_1" "createTodo"
                   (ArgDict {[ "title" := JStr "Buy milk" ]}) ])
            empty_store).2)
    ∧ TodoResponse.mk k "Buy milk" (Some "") false ∈ l
    ∧ length l = S (size (todos empty_store)).
Proof.
  apply (@created_todo_is_listed Reference.library _ _
           {[ "title" := JStr "Buy milk" ]}).
  - apply map_Forall_empty.
  - exists [], []. split_and!; [reflexivity|constructor|reflexivity].
  - reflexivity.
  - vm_compute. reflexivity.
  - reflexivity.
  - vm_compute. reflexivity.
  - exists [], []. split_and!; [reflexivity|constructor|reflexivity].
Defined.

(** ** Deleting twice *)

Lemma first_by_id_deleted {A} (table : gmap Z A) key k row :
  first_by_id table key = Some (k, row) →
  first_by_id (delete k table) key = None.
Proof.
  unfold first_by_id. destruct key as [k'|]; simpl; [|done].
  destruct (table !! k') as [row'|] eqn:Hrow; simpl; [|done].
  intros [= <- <-]. by rewrite lookup_delete_eq.
Qed.

(** Deleting is not idempotent: when a delete request has succeeded, the
    same request sent again, on the store the first one left, is
    answered with 404 and the not-found message of the route, and changes
    nothing.  This holds on the three delete routes and for every form of
    the id the first request was accepted with. *)
Theorem second_delete_is_not_found `{Library} e request db body db' :
  deletes e = true →
  handle e request db = (Results body, db') →
  handle e request db'
  = (Error (HTTPException 404
              (match e with
               | DeleteTodo => "Todo not found"
               | DeleteReminder => "Reminder not found"
               | _ => "Calendar event not found"
               end)),
     db').
Proof.
  intros He.
  destruct e; try discriminate He; simpl; unfold_handlers;
    (destruct (find_tool_call _ _) as [tool_call|]; [|done]);
    (destruct (load_arguments (arguments_of tool_call)) as [?|a]; [done|]);
    step_attempt;
    (destruct (negb _); [done|]);
    (destruct (bind_key _) as [?|key]; [done|]); simpl.
  - destruct (first_by_id (todos db) key) as [[k row]|] eqn:Hrow; [|done].
    intros [= _ <-]. simpl. by rewrite (first_by_id_deleted _ _ _ _ Hrow).
  - destruct (first_by_id (reminders db) key) as [[k row]|] eqn:Hrow; [|done].
    intros [= _ <-]. simpl. by rewrite (first_by_id_deleted _ _ _ _ Hrow).
  - destruct (first_by_id (calendar_events db) key) as [[k row]|] eqn:Hrow;
      [|done].
    intros [= _ <-]. simpl. by rewrite (first_by_id_deleted _ _ _ _ Hrow).
Qed.

Lemma second_delete_is_not_found_witness :
  @handle Reference.library DeleteReminder
    (request_of
       [ call "call_1" "deleteReminder" (ArgStr (Reference.dq "{'id': 4}")) ])
    empty_store
  = (Error (HTTPException 404 "Reminder not found"), empty_store).
Proof.
  apply (@second_delete_is_not_found Reference.library DeleteReminder
           (request_of
              [ call "call_1" "deleteReminder"
                  (ArgStr (Reference.dq "{'id': 4}")) ])
           (set_reminders {[ 4 := Reminder.mk (Some "Pay rent") (Some "low") ]}
              empty_store)
           [ {| toolCallId := "call_1"; result := PDeleted (JNum 4) true |} ]).
  - reflexivity.
  - vm_compute. reflexivity.
Defined.

(** A reminder that [deleteReminder] has removed is no longer read by
    [getReminders]: when no stored reminder has a NULL text or
    importance, after the delete of a present id succeeds, the listing
    holds no item with that id and one item less than the table had
    rows. *)
Theorem deleted_reminder_is_not_listed `{Library}
    request tool_call a n row request' tool_call' db :
  map_Forall (λ _ r, is_Some (Reminder.reminder_text r)
                     ∧ is_Some (Reminder.importance r)) (reminders db) →
  reminders db !! n = Some row →
  0 < n < 2 ^ 63 →
  first_matching "deleteReminder" request tool_call →
  carries tool_call a →
  a !! "id" = Some (JNum n) →
  first_matching "getReminders" request' tool_call' →
  ∃ l,
    (delete_reminder request db).1
    = envelope tool_call (PDeleted (JNum n) true)
    ∧ get_reminders request' (delete_reminder request db).2
      = (envelope tool_call' (PReminders l), (delete_reminder request db).2)
    ∧ (∀ item, item ∈ l → ReminderResponse.id item ≠ n)
    ∧ S (length l) = size (reminders db).
Proof.
  intros Hrows Hrow Hn Hfirst%find_tool_call_first
    Hargs%load_arguments_carries Hid Hfirst'%find_tool_call_first.
  assert (negb (n =? 0) = true) as Htruthy
    by (apply negb_true_iff, Z.eqb_neq; lia).
  assert (fits_int64 n = true) as Hfits
    by (unfold fits_int64; apply andb_true_iff; split;
        [apply Z.leb_le|apply Z.ltb_lt]; lia).
  assert (delete_reminder request db
          = (envelope tool_call (PDeleted (JNum n) true),
             set_reminders (delete n (reminders db)) db)) as Hdelete.
  { unfold delete_reminder. rewrite Hfirst, Hargs. step_attempt.
    unfold get_or_none, get. rewrite Hid. simpl.
    rewrite Htruthy, Hfits. simpl. unfold first_by_id. simpl.
    by rewrite Hrow. }
  rewrite Hdelete. simpl.
  destruct (get_reminders_answer request' tool_call'
              (set_reminders (delete n (reminders db)) db))
    as (l & Heach & Hlen & Hl); [|done|].
  { simpl. by apply map_Forall_delete. }
  exists l. split_and!; [done|done| |].
  - intros [k text imp] Hitem Hk. simpl in Hk. subst k.
    apply (reminder_item_iff _ _ _ _ _ Heach) in Hitem. simpl in Hitem.
    by rewrite lookup_delete_eq in Hitem.
  - rewrite Hlen. simpl. symmetry. by eapply size_delete_row.
Qed.

Lemma deleted_reminder_is_not_listed_witness :
  ∃ l,
    (@delete_reminder Reference.library
       (request_of
          [ call "call_1" "deleteReminder" (ArgDict {[ "id" := JNum 1 ]}) ])
       (set_reminders
          (<[ 2 := Reminder.mk (Some "Pay rent") (Some "low") ]>
             {[ 1 := Reminder.mk (Some "Call mom") (Some "high") ]})
          empty_store)).1
    = envelope
        (call "call_1" "deleteReminder" (ArgDict {[ "id" := JNum 1 ]}))
        (PDeleted (JNum 1) true)
    ∧ get_reminders
        (request_of [ call "call_2" "getReminders" (ArgDict ∅) ])
        (@delete_reminder Reference.library
           (request_of
              [ call "call_1" "deleteReminder" (ArgDict {[ "id" := JNum 1 ]}) ])
           (set_reminders
              (<[ 2 := Reminder.mk (Some "Pay rent") (Some "low") ]>
                 {[ 1 := Reminder.mk (Some "Call mom") (Some "high") ]})
              empty_store)).2
      = (envelope (call "call_2" "getReminders" (ArgDict ∅)) (PReminders l),
         (@delete_reminder Reference.library
            (request_of
               [ call "call_1" "deleteReminder" (ArgDict {[ "id" := JNum 1 ]}) ])
            (set_reminders
               (<[ 2 := Reminder.mk (Some "Pay rent") (Some "low") ]>
                  {[ 1 := Reminder.mk (Some "Call mom") (Some "high") ]})
               empty_store)).2)
    ∧ (∀ item, item ∈ l → ReminderResponse.id item ≠ 1)
    ∧ S (length l)
      = size (reminders
          (set_reminders
             (<[ 2 := Reminder.mk (Some "Pay rent") (Some "low") ]>
                {[ 1 := Reminder.mk (Some "Call mom") (Some "high") ]})
             empty_store)).
Proof.
  apply (@deleted_reminder_is_not_listed Reference.library _ _
           {[ "id" := JNum 1 ]} 1
           (Reminder.mk (Some "Call mom") (Some "high"))).
  - apply map_Forall_insert_2; [split; by eexists|].
    apply map_Forall_singleton. split; by eexists.
  - vm_compute. reflexivity.
  - lia.
  - exists [], []. split_and!; [reflexivity|constructor|reflexivity].
  - reflexivity.
  - vm_compute. reflexivity.
  - exists [], []. split_and!; [reflexivity|constructor|reflexivity].
Defined.

(** ** Completing, then reading *)

(** A to-do that [completeTodo] has marked is read back completed by the
    next [getTodos], with the title and the description it had; the
    listing is as long as before. *)
Theorem completed_todo_is_listed_completed `{Library}
    request tool_call a n title description completed
    request' tool_call' db :
  map_Forall (λ _ todo, is_Some (Todo.title todo)) (todos db) →
  todos db !! n = Some (Todo.mk (Some title) description completed) →
  0 < n < 2 ^ 63 →
  first_matching "completeTodo" request tool_call →
  carries tool_call a →
  a !! "id" = Some (JNum n) →
  first_matching "getTodos" request' tool_call' →
  ∃ l,
    (complete_todo request db).1 = envelope tool_call (PStr "success")
    ∧ get_todos request' (complete_todo request db).2
      = (envelope tool_call' (PTodos l), (complete_todo request db).2)
    ∧ TodoResponse.mk n title description true ∈ l
    ∧ length l = size (todos db).
Proof.
  intros Htitles Hrow Hn Hfirst%find_tool_call_first
    Hargs%load_arguments_carries Hid Hfirst'%find_tool_call_first.
  assert (negb (n =? 0) = true) as Htruthy
    by (apply negb_true_iff, Z.eqb_neq; lia).
  assert (fits_int64 n = true) as Hfits
    by (unfold fits_int64; apply andb_true_iff; split;
        [apply Z.leb_le|apply Z.ltb_lt]; lia).
  assert (complete_todo request db
          = (envelope tool_call (PStr "success"),
             set_todos (<[n := Todo.mk (Some title) description true]>
                          (todos db)) db)) as Hcomplete.
  { unfold complete_todo. rewrite Hfirst, Hargs. step_attempt.
    unfold get_or_none, get. rewrite Hid. simpl.
    rewrite Htruthy, Hfits. simpl. unfold first_by_id. simpl.
    by rewrite Hrow. }
  rewrite Hcomplete. simpl.
  destruct (get_todos_answer request' tool_call'
              (set_todos (<[n := Todo.mk (Some title) description true]>
                           (todos db)) db))
    as (l & Heach & Hlen & Hl); [|done|].
  { simpl. apply map_Forall_insert_2; [by eexists|done]. }
  exists l. split_and!; [done|done| |].
  - apply (todo_item_iff _ _ _ _ _ _ Heach), lookup_insert_eq.
  - rewrite Hlen. simpl. apply map_size_insert_Some. eauto.
Qed.

Lemma completed_todo_is_listed_completed_witness :
  ∃ l,
    (@complete_todo Reference.library
       (request_of
          [ call "call_1" "completeTodo" (ArgDict {[ "id" := JNum 1 ]}) ])
       (set_todos {[ 1 := Todo.mk (Some "Buy milk") None false ]}
          empty_store)).1
    = envelope
        (call "call_1" "completeTodo" (ArgDict {[ "id" := JNum 1 ]}))
        (PStr "success")
    ∧ get_todos
        (request_of [ call "call_2" "getTodos" (ArgDict ∅) ])
        (@complete_todo Reference.library
           (request_of
              [ call "call_1" "completeTodo" (ArgDict {[ "id" := JNum 1 ]}) ])
           (set_todos {[ 1 := Todo.mk (Some "Buy milk") None false ]}
              empty_store)).2
      = (envelope (call "call_2" "getTodos" (ArgDict ∅)) (PTodos l),
         (@complete_todo Reference.library
            (request_of
               [ call "call_1" "completeTodo" (ArgDict {[ "id" := JNum 1 ]}) ])
            (set_todos {[ 1 := Todo.mk (Some "Buy milk") None false ]}
               empty_store)).2)
    ∧ TodoResponse.mk 1 "Buy milk" None true ∈ l
    ∧ length l
      = size (todos (set_todos {[ 1 := Todo.mk (Some "Buy milk") None false ]}
                       empty_store)).
Proof.
  apply (@completed_todo_is_listed_completed Reference.library _ _
           {[ "id" := JNum 1 ]} 1 "Buy milk" None false).
  - apply map_Forall_singleton. by eexists.
  - vm_compute. reflexivity.
  - lia.
  - exists [], []. split_and!; [reflexivity|constructor|reflexivity].
  - reflexivity.
  - vm_compute. reflexivity.
  - exists [], []. split_and!; [reflexivity|constructor|reflexivity].
Defined.

(** ** Required texts: what the guards let through and what they stop *)

(** The guard of [add_reminder] tests the truth value of the text, and a
    NaN is true.  With a NaN as ['reminder_text'] and a storable
    importance, on any store, the reminder is committed under a new key
    with a NULL text, and the request is then answered with status 500:
    here a refused request does leave a row behind. *)
Theorem nan_reminder_is_committed_then_refused `{Library}
    request tool_call a imp db :
  first_matching "addReminder" request tool_call →
  carries tool_call a →
  a !! "reminder_text" = Some (JFloat S754_nan) →
  a !! "importance" = Some (JStr imp) →
  imp ≠ "" → encodable imp = true →
  reminders db !! next_id (reminders db) = None
  ∧ add_reminder request db
    = (Error OtherException,
       set_reminders
         (<[next_id (reminders db) := Reminder.mk None (Some imp)]>
            (reminders db))
         db).
Proof.
  intros Hfirst%find_tool_call_first Hargs%load_arguments_carries
    Htext Himp Himp_ne Himp_ok.
  split; [apply next_id_fresh|].
  unfold add_reminder. rewrite Hfirst, Hargs. step_attempt.
  unfold get_or_none, get. rewrite Htext, Himp.
  change (default JNull (Some (JStr imp))) with (JStr imp).
  change (default JNull (Some (JFloat S754_nan))) with (JFloat S754_nan).
  rewrite truthy_text, bind_text_encodable by done.
  reflexivity.
Qed.

Lemma nan_reminder_is_committed_then_refused_witness :
  reminders empty_store !! next_id (reminders empty_store) = None
  ∧ @add_reminder Reference.library
      (request_of
         [ call "call_1" "addReminder"
             (ArgStr (Reference.dq
                "{'reminder_text': NaN, 'importance': 'high'}")) ])
      empty_store
    = (Error OtherException,
       set_reminders
         (<[next_id (reminders empty_store) := Reminder.mk None (Some "high")]>
            (reminders empty_store))
         empty_store).
Proof.
  apply (@nan_reminder_is_committed_then_refused Reference.library _
           (call "call_1" "addReminder"
              (ArgStr (Reference.dq
                 "{'reminder_text': NaN, 'importance': 'high'}")))
           (<["importance" := JStr "high"]>
              {[ "reminder_text" := JFloat S754_nan ]})).
  - exists [], []. split_and!; [reflexivity|constructor|reflexivity].
  - vm_compute. reflexivity.
  - vm_compute. reflexivity.
  - vm_compute. reflexivity.
  - discriminate.
  - reflexivity.
Defined.

(** [getReminders] fails as soon as one stored reminder has a NULL text
    or importance: the response model refuses the row, and the answer is
    status 500 for the whole listing, with the store unchanged. *)
Theorem get_reminders_fails_on_a_null_text `{Library}
    request tool_call k r db :
  first_matching "getReminders" request tool_call →
  reminders db !! k = Some r →
  Reminder.reminder_text r = None ∨ Reminder.importance r = None →
  get_reminders request db = (Error OtherException, db).
Proof.
  intros Hfirst%find_tool_call_first Hrow Hnull.
  unfold get_reminders. rewrite Hfirst. step_attempt.
  rewrite (for_each_raises ReminderResponse_from_orm _ (k, r)); [done| | |].
  - intros [k' [t i]] e. unfold ReminderResponse_from_orm. step_attempt.
    destruct t, i; step_attempt; try done; by intros [= <-].
  - by apply elem_of_map_to_list.
  - unfold ReminderResponse_from_orm. destruct r as [t i]. simpl in *.
    destruct Hnull as [-> | ->]; [done|]. by destruct t.
Qed.

Lemma get_reminders_fails_on_a_null_text_witness :
  get_reminders
    (request_of [ call "call_2" "getReminders" (ArgDict ∅) ])
    (@handle Reference.library AddReminder
       (request_of
          [ call "call_1" "addReminder"
              (ArgStr (Reference.dq
                 "{'reminder_text': NaN, 'importance': 'high'}")) ])
       empty_store).2
  = (Error OtherException,
     (@handle Reference.library AddReminder
        (request_of
           [ call "call_1" "addReminder"
               (ArgStr (Reference.dq
                  "{'reminder_text': NaN, 'importance': 'high'}")) ])
        empty_store).2).
Proof.
  apply (@get_reminders_fails_on_a_null_text Reference.library _
           (call "call_2" "getReminders" (ArgDict ∅)) 1
           (Reminder.mk None (Some "high"))).
  - exists [], []. split_and!; [reflexivity|constructor|reflexivity].
  - vm_compute. reflexivity.
  - by left.
Defined.

(** A required text supplied as the empty string is refused exactly as
    an absent one: on [add_reminder] for the text and the importance,
    and on [add_calendar_entry] for the title, the answer is in both
    cases 400 'Missing required fields' and the store is unchanged. *)
Theorem empty_required_text_is_refused_as_absent `{Library}
    request tool_call a db :
  carries tool_call a →
  (first_matching "addReminder" request tool_call →
   a !! "reminder_text" ∈ [None; Some (JStr "")]
   ∨ a !! "importance" ∈ [None; Some (JStr "")] →
   add_reminder request db
   = (Error (HTTPException 400 "Missing required fields"), db))
  ∧ (first_matching "addCalendarEntry" request tool_call →
     a !! "title" ∈ [None; Some (JStr "")] →
     add_calendar_entry request db
     = (Error (HTTPException 400 "Missing required fields"), db)).
Proof.
  intros Hargs%load_arguments_carries. split.
  - intros Hfirst%find_tool_call_first Hvalue.
    unfold add_reminder. rewrite Hfirst, Hargs. step_attempt.
    unfold get_or_none, get.
    rewrite !elem_of_cons, !elem_of_nil in Hvalue.
    destruct Hvalue as [[->|[->|[]]]|[->|[->|[]]]]; simpl;
      by rewrite ?orb_true_r.
  - intros Hfirst%find_tool_call_first Hvalue.
    unfold add_calendar_entry. rewrite Hfirst, Hargs. step_attempt.
    unfold get.
    rewrite !elem_of_cons, !elem_of_nil in Hvalue.
    by destruct Hvalue as [->|[->|[]]].
Qed.

Lemma empty_required_text_is_refused_as_absent_witness :
  @add_reminder Reference.library
    (request_of
       [ call "call_1" "addReminder"
           (ArgStr (Reference.dq
              "{'reminder_text': '', 'importance': 'high'}")) ])
    empty_store
  = (Error (HTTPException 400 "Missing required fields"), empty_store)
  ∧ @add_reminder Reference.library
      (request_of
         [ call "call_1" "addReminder"
             (ArgStr (Reference.dq "{'importance': 'high'}")) ])
      empty_store
    = (Error (HTTPException 400 "Missing required fields"), empty_store).
Proof.
  split.
  - destruct (@empty_required_text_is_refused_as_absent Reference.library
                (request_of
                   [ call "call_1" "addReminder"
                       (ArgStr (Reference.dq
                          "{'reminder_text': '', 'importance': 'high'}")) ])
                (call "call_1" "addReminder"
                   (ArgStr (Reference.dq
                      "{'reminder_text': '', 'importance': 'high'}")))
                (<["importance" := JStr "high"]>
                   {[ "reminder_text" := JStr "" ]})
                empty_store) as [Hreminder _].
    + vm_compute. reflexivity.
    + apply Hreminder.
      * exists [], []. split_and!; [reflexivity|constructor|reflexivity].
      * left. apply elem_of_cons. right. apply elem_of_cons. by left.
  - destruct (@empty_required_text_is_refused_as_absent Reference.library
                (request_of
                   [ call "call_1" "addReminder"
                       (ArgStr (Reference.dq "{'importance': 'high'}")) ])
                (call "call_1" "addReminder"
                   (ArgStr (Reference.dq "{'importance': 'high'}")))
                {[ "importance" := JStr "high" ]}
                empty_store) as [Hreminder _].
    + vm_compute. reflexivity.
    + apply Hreminder.
      * exists [], []. split_and!; [reflexivity|constructor|reflexivity].
      * left. apply elem_of_cons. by left.
Defined.
